(** * The ESI agent's job tracking: polling, initial load and upload

    A shallow embedding of the client-side job reconciler of
    [ESIReceivableAgent] (the React component of the ESI agent page):

    - [pollJobStatus], the single-job status query;
    - the callback of the polling effect ([pollIntervalCallback]) with
      its [for ... of activeJobs] loop, and the effect that installs it
      with [setInterval];
    - [loadJobs], the initial load;
    - [handleUpload], the batch upload.

    The component is asynchronous code over React state.  A handler is
    a tree of commands ([Prog]): state updates ([SetState], one for each
    call of a [useState] setter) and awaited [fetch] calls, whose
    continuation receives the reply.  Values a handler reads from the
    render it was created in (its closure) are ordinary arguments;
    setters called with a function ([setX(prev => ...)]) read the state
    of the moment the update is applied. *)

From Stdlib Require Import List String Ascii ZArith Bool Arith Lia.
From Stdlib Require Import Permutation DecimalString.
Import ListNotations.

Local Open Scope string_scope.
Local Open Scope list_scope.

Set Implicit Arguments.

(** ** Data model *)

(** [JobInfo["status"]]: a union of four string literals. *)
Inductive Status : Type := PENDING | PROCESSING | COMPLETED | FAILED.

Definition Status_eqb (a b : Status) : bool :=
  match a, b with
  | PENDING, PENDING | PROCESSING, PROCESSING
  | COMPLETED, COMPLETED | FAILED, FAILED => true
  | _, _ => false
  end.

(** [result?: any] is whatever JSON the server stored. *)
#[local] Set Warnings "-register-all".
Inductive json : Type :=
| JNull
| JBool (b : bool)
| JNum (n : Z)
| JStr (s : string)
| JArr (items : list json)
| JObj (members : list (string * json)).

(** [interface JobInfo]; an optional field is an [option]. *)
Record JobInfo : Type := mkJobInfo {
  job_id : string;
  filename : string;
  status : Status;
  ledger_name : option string;
  financial_year : option string;
  result : option json;
  error : option string;
  created_at : option string
}.

(** A browser [File]; the handlers only count files and hand them to
    [FormData]. *)
Record File : Type := mkFile { name : string; size : N }.

Inductive Tab : Type := upload | history.

(** The [useState] hooks the job handlers read or write.  The hook
    [error] is called [errorMsg] here, since [error] is already the
    field of [JobInfo]. *)
Record State : Type := mkState {
  activeTab : Tab;
  files : list File;
  ledgerName : string;
  selectedFY : string;
  isUploading : bool;
  errorMsg : option string;
  success : option string;
  activeJobs : list JobInfo;
  completedJobs : list JobInfo
}.

(** The setters.  A setter called with a value overwrites the hook; the
    two calls that pass a function of the previous value are
    [setActiveJobs_fn] and [setCompletedJobs_fn]. *)
Definition setActiveTab (v : Tab) (s : State) : State :=
  mkState v (files s) (ledgerName s) (selectedFY s) (isUploading s)
          (errorMsg s) (success s) (activeJobs s) (completedJobs s).
Definition setFiles (v : list File) (s : State) : State :=
  mkState (activeTab s) v (ledgerName s) (selectedFY s) (isUploading s)
          (errorMsg s) (success s) (activeJobs s) (completedJobs s).
Definition setLedgerName (v : string) (s : State) : State :=
  mkState (activeTab s) (files s) v (selectedFY s) (isUploading s)
          (errorMsg s) (success s) (activeJobs s) (completedJobs s).
Definition setIsUploading (v : bool) (s : State) : State :=
  mkState (activeTab s) (files s) (ledgerName s) (selectedFY s) v
          (errorMsg s) (success s) (activeJobs s) (completedJobs s).
Definition setError (v : option string) (s : State) : State :=
  mkState (activeTab s) (files s) (ledgerName s) (selectedFY s) (isUploading s)
          v (success s) (activeJobs s) (completedJobs s).
Definition setSuccess (v : option string) (s : State) : State :=
  mkState (activeTab s) (files s) (ledgerName s) (selectedFY s) (isUploading s)
          (errorMsg s) v (activeJobs s) (completedJobs s).
Definition setActiveJobs_fn (f : list JobInfo -> list JobInfo) (s : State) : State :=
  mkState (activeTab s) (files s) (ledgerName s) (selectedFY s) (isUploading s)
          (errorMsg s) (success s) (f (activeJobs s)) (completedJobs s).
Definition setCompletedJobs_fn (f : list JobInfo -> list JobInfo) (s : State) : State :=
  mkState (activeTab s) (files s) (ledgerName s) (selectedFY s) (isUploading s)
          (errorMsg s) (success s) (activeJobs s) (f (completedJobs s)).
Definition setActiveJobs (v : list JobInfo) : State -> State :=
  setActiveJobs_fn (fun _ => v).
Definition setCompletedJobs (v : list JobInfo) : State -> State :=
  setCompletedJobs_fn (fun _ => v).

(** The state of the first render. *)
Definition initialState : State :=
  mkState upload [] "" "" false None None [] [].

(** ** The network *)

(** The body of an error response, [{detail}]. *)
Record ErrorBody : Type := mkErrorBody { detail : option string }.

(** The body of the job list and of the upload response, [{jobs}]. *)
Record JobsBody : Type := mkJobsBody { jobs : option (list JobInfo) }.

(** What [await fetch(...)] followed by [res.ok] and [await res.json()]
    can give: the promise of [fetch] rejects; or there is a response,
    with [ok] true or false, whose body parses ([Some]) or whose
    [json()] rejects ([None]). *)
Inductive Reply (A : Type) : Type :=
| NetworkError
| Ok2xx (body : option A)
| Non2xx (body : option ErrorBody).
Arguments NetworkError {A}.
Arguments Ok2xx {A} body.
Arguments Non2xx {A} body.

Inductive FormValue : Type :=
| FormFile (f : File)
| FormString (s : string).

Definition FormData : Type := list (string * FormValue).

Definition append (key : string) (v : FormValue) (fd : FormData) : FormData :=
  fd ++ [(key, v)].

(** A handler: state updates and awaited requests, in program order. *)
Inductive Prog (A : Type) : Type :=
| Ret (a : A)
| SetState (f : State -> State) (k : Prog A)
| GetJob (jobId : string) (k : Reply JobInfo -> Prog A)
| GetJobs (k : Reply JobsBody -> Prog A)
| PostUpload (formData : FormData) (k : Reply JobsBody -> Prog A).
Arguments Ret {A} a.
Arguments SetState {A} f k.
Arguments GetJob {A} jobId k.
Arguments GetJobs {A} k.
Arguments PostUpload {A} formData k.

Fixpoint bind {A B : Type} (p : Prog A) (f : A -> Prog B) : Prog B :=
  match p with
  | Ret a => f a
  | SetState u k => SetState u (bind k f)
  | GetJob i k => GetJob i (fun r => bind (k r) f)
  | GetJobs k => GetJobs (fun r => bind (k r) f)
  | PostUpload d k => PostUpload d (fun r => bind (k r) f)
  end.

Notation "x <- p ;; q" := (bind p (fun x => q))
  (at level 61, p at next level, right associativity).
Notation "'do' f ;; q" := (SetState f q)
  (at level 61, f at next level, right associativity).

(** ** JavaScript helpers *)

(** [a || b] for an optional string: [undefined] and the empty string
    are falsy. *)
Definition or_string (a : option string) (b : string) : string :=
  match a with
  | Some EmptyString => b
  | Some s => s
  | None => b
  end.

(** [a || []] for an optional array: every array is truthy. *)
Definition or_array {A : Type} (a : option (list A)) (b : list A) : list A :=
  match a with
  | Some l => l
  | None => b
  end.

(** A string is the sequence of the UTF-8 bytes of its text.  The white
    space and line terminators [String.prototype.trim] removes are the
    code points U+0009 to U+000D and U+0020, of one byte; U+00A0, of two
    bytes (C2 A0); and U+1680, U+2000 to U+200A, U+2028, U+2029, U+202F,
    U+205F, U+3000 and U+FEFF, of three bytes. *)
Definition code (c : ascii) : N := N_of_ascii c.

Definition isWhiteSpace (c : ascii) : bool :=
  ((9 <=? code c) && (code c <=? 13) || (code c =? 32))%N.

Definition isWhiteSpace2 (a b : ascii) : bool :=
  ((code a =? 194) && (code b =? 160))%N.

Definition isWhiteSpace3 (a b c : ascii) : bool :=
  ((code a =? 225) && (code b =? 154) && (code c =? 128)
   || (code a =? 226) && (code b =? 128)
      && ((128 <=? code c) && (code c <=? 138)
          || (code c =? 168) || (code c =? 169) || (code c =? 175))
   || (code a =? 226) && (code b =? 129) && (code c =? 159)
   || (code a =? 227) && (code b =? 128) && (code c =? 128)
   || (code a =? 239) && (code b =? 187) && (code c =? 191))%N.

Fixpoint trimStart (s : string) : string :=
  match s with
  | EmptyString => EmptyString
  | String a r =>
      if isWhiteSpace a then trimStart r
      else
        match r with
        | EmptyString => s
        | String b r2 =>
            if isWhiteSpace2 a b then trimStart r2
            else
              match r2 with
              | EmptyString => s
              | String c r3 =>
                  if isWhiteSpace3 a b c then trimStart r3 else s
              end
        end
  end.

(** The text is white space from its first to its last code point. *)
Fixpoint blank (s : string) : bool :=
  match s with
  | EmptyString => true
  | String a r =>
      if isWhiteSpace a then blank r
      else
        match r with
        | EmptyString => false
        | String b r2 =>
            if isWhiteSpace2 a b then blank r2
            else
              match r2 with
              | EmptyString => false
              | String c r3 =>
                  if isWhiteSpace3 a b c then blank r3 else false
              end
        end
  end.

(** The text without the white space it ends with: it is cut where what
    follows is white space to the end. *)
Fixpoint trimEnd (s : string) : string :=
  match s with
  | EmptyString => EmptyString
  | String a r => if blank s then EmptyString else String a (trimEnd r)
  end.

Definition trim (s : string) : string := trimEnd (trimStart s).

(** A string in a condition: truthy unless empty. *)
Definition truthy (s : string) : bool :=
  match s with
  | EmptyString => false
  | _ => true
  end.

(** [`${n}`] for a length. *)
Definition toString (n : nat) : string :=
  NilEmpty.string_of_uint (Nat.to_uint n).

(** ** The handlers *)

Definition isTerminal (s : Status) : bool :=
  Status_eqb s COMPLETED || Status_eqb s FAILED.

Definition isActive (s : Status) : bool :=
  Status_eqb s PENDING || Status_eqb s PROCESSING.

(** [pollJobStatus(jobId)]: the record of the response when [res.ok],
    [null] otherwise.  A rejected [fetch] or [json()] is caught and
    logged. *)
Definition pollJobStatus (jobId : string) : Prog (option JobInfo) :=
  GetJob jobId (fun res =>
    match res with
    | Ok2xx (Some j) => Ret (Some j)
    | Ok2xx None => Ret None
    | NetworkError => Ret None
    | Non2xx _ => Ret None
    end).

(** The loop [for (const job of activeJobs)] of the interval callback,
    from the values [updatedJobs] and [newlyCompleted] have when it
    reaches [l]; [push] appends at the end. *)
Fixpoint forActiveJobs (l updatedJobs newlyCompleted : list JobInfo)
  : Prog (list JobInfo * list JobInfo) :=
  match l with
  | [] => Ret (updatedJobs, newlyCompleted)
  | job :: rest =>
      updated <- pollJobStatus (job_id job) ;;
      match updated with
      | Some updated =>
          if isTerminal (status updated)
          then forActiveJobs rest updatedJobs (newlyCompleted ++ [updated])
          else forActiveJobs rest (updatedJobs ++ [updated]) newlyCompleted
      | None => forActiveJobs rest (updatedJobs ++ [job]) newlyCompleted
      end
  end.

(** The callback given to [setInterval]; [activeJobs] is the array of
    the render in which the effect ran. *)
Definition pollIntervalCallback (activeJobs : list JobInfo) : Prog unit :=
  r <- forActiveJobs activeJobs [] [] ;;
  let updatedJobs := fst r in
  let newlyCompleted := snd r in
  if (0 <? List.length newlyCompleted)%nat
  then do setCompletedJobs_fn (fun prev => newlyCompleted ++ prev) ;;
       do setActiveJobs updatedJobs ;;
       Ret tt
  else do setActiveJobs updatedJobs ;;
       Ret tt.

(** [loadJobs], run once on mount. *)
Definition loadJobs : Prog unit :=
  GetJobs (fun res =>
    match res with
    | Ok2xx (Some data) =>
        let jobs := or_array (jobs data) [] in
        let active := filter (fun j => Status_eqb (status j) PENDING
                                       || Status_eqb (status j) PROCESSING) jobs in
        let completed := filter (fun j => Status_eqb (status j) COMPLETED
                                          || Status_eqb (status j) FAILED) jobs in
        do setActiveJobs active ;;
        do setCompletedJobs completed ;;
        Ret tt
    | Ok2xx None => Ret tt
    | NetworkError => Ret tt
    | Non2xx _ => Ret tt
    end).

(** The form [handleUpload] posts. *)
Definition uploadForm (files : list File) (ledgerName selectedFY : string) : FormData :=
  let formData := fold_left (fun fd file => append "files" (FormFile file) fd) files [] in
  let formData := if truthy (trim ledgerName)
                  then append "ledger_names" (FormString (trim ledgerName)) formData
                  else formData in
  if truthy selectedFY
  then append "financial_year" (FormString selectedFY) formData
  else formData.

(** The record [handleUpload] makes of a job of the response: the three
    fields of the response and the two form inputs; the other fields
    stay undefined. *)
Definition newJob (ledgerName selectedFY : string) (j : JobInfo) : JobInfo :=
  {| job_id := job_id j;
     filename := filename j;
     status := status j;
     ledger_name := Some ledgerName;
     financial_year := Some selectedFY;
     result := None;
     error := None;
     created_at := None |}.

(** [handleUpload(e)]; [files], [ledgerName] and [selectedFY] are the
    values of the render the handler belongs to. *)
Definition handleUpload (files : list File) (ledgerName selectedFY : string) : Prog unit :=
  if (List.length files =? 0)%nat
  then do setError (Some "Please select at least one file to upload.") ;;
       Ret tt
  else
    do setIsUploading true ;;
    do setError None ;;
    do setSuccess None ;;
    let finally := do setIsUploading false ;; Ret tt in
    let catch := do setError (Some "Network error: Could not upload documents.") ;;
                 finally in
    PostUpload (uploadForm files ledgerName selectedFY) (fun response =>
      match response with
      | NetworkError => catch
      | Ok2xx None => catch
      | Ok2xx (Some result) =>
          match jobs result with
          | None => catch
          | Some js =>
              let newJobs := map (newJob ledgerName selectedFY) js in
              do setActiveJobs_fn (fun prev => newJobs ++ prev) ;;
              do setSuccess (Some (String.append "Successfully queued "
                       (String.append (toString (List.length files))
                                      " document(s) for AI analysis."))) ;;
              do setFiles [] ;;
              do setLedgerName "" ;;
              do setActiveTab history ;;
              finally
          end
      | Non2xx None => catch
      | Non2xx (Some errorData) =>
          do setError (Some (or_string (detail errorData)
                                       "Failed to upload documents.")) ;;
          finally
      end).

(** ** The polling effect and its timer *)

(** An interval timer: the delay in milliseconds and the callback. *)
Record Interval : Type := mkInterval { delay : Z; callback : Prog unit }.

(** The timers of the page, by handle. *)
Record Timers : Type := mkTimers {
  nextHandle : nat;
  live : list (nat * Interval)
}.

Definition noTimers : Timers := mkTimers 1 [].

Definition setInterval (cb : Prog unit) (ms : Z) (t : Timers) : nat * Timers :=
  (nextHandle t,
   mkTimers (S (nextHandle t)) (live t ++ [(nextHandle t, mkInterval ms cb)])).

Definition clearInterval (h : nat) (t : Timers) : Timers :=
  mkTimers (nextHandle t) (filter (fun e => negb (fst e =? h)%nat) (live t)).

(** The body of the polling effect.  It returns the handle its cleanup
    [() => clearInterval(pollInterval)] will clear, if it set a timer. *)
Definition pollingEffect (activeJobs : list JobInfo) (t : Timers)
  : option nat * Timers :=
  if (List.length activeJobs =? 0)%nat then (None, t)
  else
    let (pollInterval, t') :=
      setInterval (pollIntervalCallback activeJobs) 3000 t in
    (Some pollInterval, t').

Definition cleanup (c : option nat) (t : Timers) : Timers :=
  match c with
  | Some pollInterval => clearInterval pollInterval t
  | None => t
  end.

(** [activeJobs] is a dependency of the effect: when a render has a new
    array, React runs the cleanup of the previous run and then the body
    again. *)
Definition rerunEffect (activeJobs : list JobInfo) (e : option nat * Timers)
  : option nat * Timers :=
  pollingEffect activeJobs (cleanup (fst e) (snd e)).

(** The effect after the mount (with the initial, empty [activeJobs])
    and the renders that gave [activeJobs] the values [renders], in
    order. *)
Definition effectAfter (renders : list (list JobInfo)) : option nat * Timers :=
  fold_left (fun e a => rerunEffect a e) renders
            (pollingEffect (activeJobs initialState) noTimers).

(** ** Running a handler *)

Inductive Request : Type :=
| ReqGetJob (jobId : string)
| ReqGetJobs
| ReqPostUpload (formData : FormData).

Section Semantics.

(** The server and the network are a state [W] that answers the three
    requests. *)
Variable W : Type.

Record Server : Type := mkServer {
  srv_getJob : string -> W -> Reply JobInfo * W;
  srv_getJobs : W -> Reply JobsBody * W;
  srv_upload : FormData -> W -> Reply JobsBody * W
}.

Record Outcome (A : Type) : Type := mkOutcome {
  ret : A;
  final : State;
  world : W;
  requests : list Request
}.

Definition sent {A : Type} (q : Request) (o : Outcome A) : Outcome A :=
  mkOutcome (ret o) (final o) (world o) (q :: requests o).

Variable srv : Server.

(** A handler run from start to end with nothing in between: every
    state update is applied to the state the previous one left. *)
Fixpoint run {A : Type} (p : Prog A) (st : State) (w : W) : Outcome A :=
  match p with
  | Ret a => mkOutcome a st w []
  | SetState f k => run k (f st) w
  | GetJob i k =>
      let (r, w') := srv_getJob srv i w in
      sent (ReqGetJob i) (run (k r) st w')
  | GetJobs k =>
      let (r, w') := srv_getJobs srv w in
      sent ReqGetJobs (run (k r) st w')
  | PostUpload d k =>
      let (r, w') := srv_upload srv d w in
      sent (ReqPostUpload d) (run (k r) st w')
  end.

(** One firing of the interval timer: the callback the effect made
    from the current [activeJobs]. *)
Definition tick (st : State) (w : W) : Outcome unit :=
  run (pollIntervalCallback (activeJobs st)) st w.

Fixpoint ticks (n : nat) (st : State) (w : W) : State * W :=
  match n with
  | O => (st, w)
  | S n' => let o := tick st w in ticks n' (final o) (world o)
  end.

End Semantics.

Arguments mkOutcome {W A} ret final world requests.

(** ** A handler that is suspended while another one runs *)

(** The updates of [p] up to its next [await], applied to [st]; what is
    left of [p] waits for its reply. *)
Fixpoint settle {A : Type} (p : Prog A) (st : State) : State * Prog A :=
  match p with
  | SetState f k => settle k (f st)
  | _ => (st, p)
  end.

(** The reply of a pending request arrives. *)
Definition resolveGetJob {A : Type} (r : Reply JobInfo) (p : Prog A) : Prog A :=
  match p with
  | GetJob _ k => k r
  | _ => p
  end.

Definition resolveUpload {A : Type} (r : Reply JobsBody) (p : Prog A) : Prog A :=
  match p with
  | PostUpload _ k => k r
  | _ => p
  end.

(** ** What one iteration of the loop does with the reply *)

(** The value [pollJobStatus] returns for a reply. *)
Definition pollResult (r : Reply JobInfo) : option JobInfo :=
  match r with
  | Ok2xx (Some j) => Some j
  | _ => None
  end.

(** The status query failed: the [fetch] was rejected, or the response
    was not a success. *)
Definition queryFailed (r : Reply JobInfo) : bool :=
  match r with
  | NetworkError | Non2xx _ => true
  | Ok2xx _ => false
  end.

(** What the iteration for [job] pushes on [updatedJobs]... *)
Definition kept (job : JobInfo) (updated : option JobInfo) : list JobInfo :=
  match updated with
  | Some u => if isTerminal (status u) then [] else [u]
  | None => [job]
  end.

(** ... and on [newlyCompleted]. *)
Definition finished (updated : option JobInfo) : list JobInfo :=
  match updated with
  | Some u => if isTerminal (status u) then [u] else []
  | None => []
  end.

(** ** Servers to run the handlers against *)

(** A server that answers from a script: the status queries take the
    next reply of [statusReplies] (the request is lost when none is
    left); the list and the upload have one reply each. *)
Record Script : Type := mkScript {
  statusReplies : list (Reply JobInfo);
  listReply : Reply JobsBody;
  uploadReply : Reply JobsBody
}.

Definition scripted : Server Script :=
  mkServer
    (fun _ s =>
       match statusReplies s with
       | [] => (NetworkError, s)
       | r :: rs => (r, mkScript rs (listReply s) (uploadReply s))
       end)
    (fun s => (listReply s, s))
    (fun _ s => (uploadReply s, s)).

(** A server that does not know any job: 404 for every status query. *)
Definition notFound : ErrorBody := mkErrorBody (Some "Job not found").

Definition forgetful : Server unit :=
  mkServer
    (fun _ u => (Non2xx (Some notFound), u))
    (fun u => (Ok2xx (Some (mkJobsBody (Some []))), u))
    (fun _ u => (Non2xx (Some notFound), u)).

(** The jobs of the examples. *)
Definition job (id file : string) (s : Status) : JobInfo :=
  mkJobInfo id file s (Some "ACME") (Some "2023-24") None None None.

Definition j1 : JobInfo := job "j1" "a.pdf" PENDING.
Definition j2 : JobInfo := job "j2" "b.pdf" PROCESSING.
Definition j3 : JobInfo := job "j3" "c.pdf" PENDING.

Definition j1_done : JobInfo :=
  mkJobInfo "j1" "a.pdf" COMPLETED (Some "ACME") (Some "2023-24")
            (Some (JObj [("amount", JNum 100)])) None None.

Definition j3_failed : JobInfo :=
  mkJobInfo "j3" "c.pdf" FAILED (Some "ACME") (Some "2023-24")
            None (Some "Could not read the document") None.

Definition j0_done : JobInfo := job "j0" "old.pdf" COMPLETED.

Definition tracking (active completed : list JobInfo) : State :=
  setCompletedJobs completed (setActiveJobs active initialState).

Definition answers (l : list (Reply JobInfo)) : Script :=
  mkScript l NetworkError NetworkError.

(** ** Predicates of the statements *)

Definition terminal (j : JobInfo) : Prop := isTerminal (status j) = true.
Definition unfinished (j : JobInfo) : Prop := isActive (status j) = true.

(** The records the server reports COMPLETED or FAILED when it is asked,
    one query after the other, for the jobs of [l]: those a tick over
    [l] finds terminal, in the order it finds them. *)
Fixpoint reportedTerminal (W : Type) (srv : Server W) (l : list JobInfo) (w : W)
  : list JobInfo :=
  match l with
  | [] => []
  | job :: rest =>
      let q := srv_getJob srv (job_id job) w in
      match fst q with
      | Ok2xx (Some updated) =>
          if Status_eqb (status updated) COMPLETED
             || Status_eqb (status updated) FAILED
          then updated :: reportedTerminal srv rest (snd q)
          else reportedTerminal srv rest (snd q)
      | _ => reportedTerminal srv rest (snd q)
      end
  end.

(** The server answers a status query with the record of the job that
    was asked for. *)
Definition answers_for_the_id (W : Type) (srv : Server W) : Prop :=
  forall id w j, fst (srv_getJob srv id w) = Ok2xx (Some j) -> job_id j = id.

(** The effect owns at most one timer: the one its cleanup will clear. *)
Definition owns (e : option nat * Timers) : Prop :=
  match fst e with
  | Some h => exists i, live (snd e) = [(h, i)]
  | None => live (snd e) = []
  end.

(** The intervals that are set. *)
Definition scheduled (e : option nat * Timers) : list Interval :=
  map snd (live (snd e)).

Definition expected (a : list JobInfo) : list Interval :=
  match a with
  | [] => []
  | _ :: _ => [mkInterval 3000 (pollIntervalCallback a)]
  end.

(** ** Example pages and servers *)

(** A page that tracks [j1], [j2] and [j3] and has [j0] completed; at
    the next tick the server reports [j1] completed, the query for [j2]
    is lost, and [j3] has failed. *)
Definition three_active : State := tracking [j1; j2; j3] [j0_done].

Definition one_lost : Script :=
  answers [Ok2xx (Some j1_done); NetworkError; Ok2xx (Some j3_failed)].

(** Uploads from a page that tracks [j3] and has [j0] completed. *)
Definition one_active : State := tracking [j3] [j0_done].

Definition a_pdf : File := mkFile "a.pdf" 1024.
Definition b_pdf : File := mkFile "b.pdf" 2048.

(** A job as the upload response describes it. *)
Definition descriptor (id file : string) (s : Status) : JobInfo :=
  mkJobInfo id file s None None None None None.

Definition upload_answer (r : Reply JobsBody) : Script :=
  mkScript [] NetworkError r.

(** A ledger name that is one no-break space, U+00A0. *)
Definition no_break_space : string :=
  String (ascii_of_N 194) (String (ascii_of_N 160) EmptyString).

(** The server refuses the upload and says why. *)
Definition refused : Reply JobsBody :=
  Non2xx (Some (mkErrorBody (Some "Only PDF files are accepted"))).

(** The server refuses the upload with a [detail] that is the empty
    string. *)
Definition nothing_said : Reply JobsBody :=
  Non2xx (Some (mkErrorBody (Some ""))).

(** The server answers an upload of two files with a pending job and one
    that is already completed. *)
Definition queued : Reply JobsBody :=
  Ok2xx (Some (mkJobsBody (Some [descriptor "j4" "a.pdf" PENDING;
                                 descriptor "j5" "b.pdf" COMPLETED]))).

(** The server answers an upload of one file with one pending job. *)
Definition queued_one : Reply JobsBody :=
  Ok2xx (Some (mkJobsBody (Some [descriptor "j4" "b.pdf" PENDING]))).

(** The server answers the upload of one file with a job that is
    already COMPLETED, and the status query for it with the full
    record. *)
Definition finished_at_once : Script :=
  mkScript [Ok2xx (Some j1_done)] NetworkError
           (Ok2xx (Some (mkJobsBody (Some [descriptor "j1" "a.pdf" COMPLETED])))).

(** An upload that is answered while a tick waits for the server.  The
    page tracks [j1] and has one file selected. *)
Definition j1_processing : JobInfo := job "j1" "a.pdf" PROCESSING.

Definition page : State := setFiles [b_pdf] (tracking [j1] []).

(** The timer fires: the callback, made from the list [[j1]], sends the
    status query for [j1] and waits. *)
Definition timer_fired : State * Prog unit :=
  settle (pollIntervalCallback (activeJobs page)) page.

(** The user submits the form: [handleUpload] posts it and waits. *)
Definition submitted : State * Prog unit :=
  let st := fst timer_fired in
  settle (handleUpload (files st) (ledgerName st) (selectedFY st)) st.

(** The upload is answered first, with the new job [j4]. *)
Definition upload_answered : State * Prog unit :=
  settle (resolveUpload queued_one (snd submitted)) (fst submitted).

(** Then the status query is answered: [j1] is being processed. *)
Definition status_answered : State * Prog unit :=
  settle (resolveGetJob (Ok2xx (Some j1_processing)) (snd timer_fired))
         (fst upload_answered).

(** ** The other handlers and hooks of the page *)

Definition setSelectedFY (v : string) (s : State) : State :=
  mkState (activeTab s) (files s) (ledgerName s) v (isUploading s)
          (errorMsg s) (success s) (activeJobs s) (completedJobs s).

(** [Array.prototype.filter] with a callback that also takes the index;
    [i] is the index of the head of [l]. *)
Fixpoint filter_from {A : Type} (i : nat) (p : A -> nat -> bool) (l : list A)
  : list A :=
  match l with
  | [] => []
  | x :: r => if p x i then x :: filter_from (S i) p r else filter_from (S i) p r
  end.

(** [removeFile(index)]; [files] is the array of the render. *)
Definition removeFile (files : list File) (index : nat) : State -> State :=
  setFiles (filter_from 0 (fun _ i => negb (i =? index)%nat) files).

(** [handleFileChange(e)]; [e.target.files] is [null] or the list of the
    files chosen. *)
Definition handleFileChange (target_files : option (list File)) (s : State) : State :=
  match target_files with
  | Some chosen => setFiles chosen s
  | None => s
  end.

(** The [disabled] attribute of the two buttons under the file list. *)
Definition uploadDisabled (s : State) : bool :=
  (List.length (files s) =? 0)%nat || isUploading s.

(** The render a handler belongs to gives it its values. *)
Definition submit (s : State) : Prog unit :=
  handleUpload (files s) (ledgerName s) (selectedFY s).

(** The hooks the job handlers do not touch, beside the others. *)
Record Page : Type := mkPage {
  hooks : State;
  financialYears : list string;
  isLoading : bool;
  selectedJob : option JobInfo
}.

Definition onHooks (f : State -> State) (p : Page) : Page :=
  mkPage (f (hooks p)) (financialYears p) (isLoading p) (selectedJob p).
Definition setFinancialYears (v : list string) (p : Page) : Page :=
  mkPage (hooks p) v (isLoading p) (selectedJob p).
Definition setIsLoading (v : bool) (p : Page) : Page :=
  mkPage (hooks p) (financialYears p) v (selectedJob p).
Definition setSelectedJob (v : option JobInfo) (p : Page) : Page :=
  mkPage (hooks p) (financialYears p) (isLoading p) v.

Definition initialPage : Page := mkPage initialState [] false None.

(** The effect that loads the financial years: updates of the page and
    one awaited request. *)
Inductive PageProg : Type :=
| Finished
| SetPage (f : Page -> Page) (k : PageProg)
| GetFinancialYears (k : Reply (list string) -> PageProg).

(** [fetchData], run once on mount. *)
Definition fetchData : PageProg :=
  SetPage (setIsLoading true)
    (GetFinancialYears (fun fyRes =>
       let finally := SetPage (setIsLoading false) Finished in
       match fyRes with
       | Ok2xx (Some fyData) =>
           SetPage (setFinancialYears fyData)
             match fyData with
             | fy0 :: _ => SetPage (onHooks (setSelectedFY fy0)) finally
             | [] => finally
             end
       | Ok2xx None => finally
       | NetworkError => finally
       | Non2xx _ => finally
       end)).

(** A page handler run to its end; every request gets the reply [r]. *)
Fixpoint runPage (r : Reply (list string)) (p : PageProg) (pg : Page) : Page :=
  match p with
  | Finished => pg
  | SetPage f k => runPage r k (f pg)
  | GetFinancialYears k => runPage r (k r) pg
  end.

(** The requests a page handler sends. *)
Fixpoint pageRequests (r : Reply (list string)) (p : PageProg) : nat :=
  match p with
  | Finished => 0
  | SetPage _ k => pageRequests r k
  | GetFinancialYears k => S (pageRequests r (k r))
  end.

(** [selectedJob?.job_id === job.job_id]: the details of [job] are
    open. *)
Definition isSelected (selectedJob : option JobInfo) (job : JobInfo) : bool :=
  match selectedJob with
  | Some s => String.eqb (job_id s) (job_id job)
  | None => false
  end.

(** The click on a completed job; [selectedJob] is the value of the
    render. *)
Definition onJobClick (selectedJob : option JobInfo) (job : JobInfo) : Page -> Page :=
  setSelectedJob (if isSelected selectedJob job then None else Some job).

(** ** More predicates and servers *)

(** The files and the text fields of a form. *)
Definition formFiles (fd : FormData) : list File :=
  flat_map (fun e => match e with
                     | ("files", FormFile f) => [f]
                     | _ => []
                     end) fd.

Definition formKeys (fd : FormData) : list string := map fst fd.

(** The upload was accepted: a success response with a list of jobs. *)
Definition accepted (r : Reply JobsBody) : option (list JobInfo) :=
  match r with
  | Ok2xx (Some body) => jobs body
  | _ => None
  end.

(** A server that keeps the jobs in a list and answers a status query
    with the first record that has the id. *)
Definition lookup (id : string) (db : list JobInfo) : option JobInfo :=
  find (fun j => String.eqb (job_id j) id) db.

Definition store : Server (list JobInfo) :=
  mkServer
    (fun id db =>
       match lookup id db with
       | Some j => (Ok2xx (Some j), db)
       | None => (Non2xx (Some notFound), db)
       end)
    (fun db => (Ok2xx (Some (mkJobsBody (Some db))), db))
    (fun _ db => (Non2xx (Some notFound), db)).

(** A server on which every job is finished. *)
Definition all_done : Server unit :=
  mkServer
    (fun id u => (Ok2xx (Some (job id "a.pdf" COMPLETED)), u))
    (fun u => (Ok2xx (Some (mkJobsBody (Some []))), u))
    (fun _ u => (Non2xx (Some notFound), u)).

(** A server that cannot be reached. *)
Definition unreachable : Server unit :=
  mkServer
    (fun _ u => (NetworkError, u))
    (fun u => (NetworkError, u))
    (fun _ u => (NetworkError, u)).

(** ** The polling timer in time *)

Section Timed.

Variable W : Type.
Variable srv : Server W.

(** The time, in milliseconds, the server takes to answer a request. *)
Variable latency : Request -> W -> Z.

(** The time a handler takes: that of its awaited requests. *)
Fixpoint took {A : Type} (p : Prog A) (st : State) (w : W) : Z :=
  match p with
  | Ret _ => 0
  | SetState f k => took k (f st) w
  | GetJob i k =>
      let (r, w') := srv_getJob srv i w in
      latency (ReqGetJob i) w + took (k r) st w'
  | GetJobs k =>
      let (r, w') := srv_getJobs srv w in
      latency ReqGetJobs w + took (k r) st w'
  | PostUpload d k =>
      let (r, w') := srv_upload srv d w in
      latency (ReqPostUpload d) w + took (k r) st w'
  end.

(** The page between two events: the time the polling effect last ran
    (that is, when [activeJobs] last got a new array), the state shown,
    the server, and the effect with its timers. *)
Record Polling : Type := mkPolling {
  since : Z;
  shown : State;
  net : W;
  eff : option nat * Timers
}.

(** The page whose [activeJobs] was set at time [t], after [renders]. *)
Definition polling (t : Z) (st : State) (w : W) (renders : list (list JobInfo))
  : Polling :=
  mkPolling t st w (effectAfter (renders ++ [activeJobs st])).

Inductive Fired : Type :=
| NoTimer
| Overlap (start : Z)
| Ticked (start finish : Z) (after : Polling).

(** The next firing of the interval timer.  A timer set at time [since]
    with [delay] fires first at [since + delay].  Its callback runs with
    nothing in between and ends when its last request is answered; it
    then has given [activeJobs] a new array (line 111), so the effect
    runs again at that time: cleanup, then the body.  When the callback
    is not over before the timer fires again, two callbacks overlap:
    that case is not followed. *)
Definition nextTick (p : Polling) : Fired :=
  match live (snd (eff p)) with
  | [] => NoTimer
  | (_, i) :: _ =>
      let start := (since p + delay i)%Z in
      let d := took (callback i) (shown p) (net p) in
      if (d <? delay i)%Z
      then
        let o := run srv (callback i) (shown p) (net p) in
        Ticked start (start + d)%Z
               (mkPolling (start + d)%Z (final o) (world o)
                          (rerunEffect (activeJobs (final o)) (eff p)))
      else Overlap start
  end.

(** The upload submitted with [fs], [ledger] and [fy] is answered at
    time [t].  An accepted upload gives [activeJobs] a new array (line
    182) and the effect runs again; otherwise the effect and its timer
    stay. *)
Definition afterUpload (t : Z) (fs : list File) (ledger fy : string) (p : Polling)
  : Polling :=
  let o := run srv (handleUpload fs ledger fy) (shown p) (net p) in
  match fs, accepted (fst (srv_upload srv (uploadForm fs ledger fy) (net p))) with
  | _ :: _, Some _ =>
      mkPolling t (final o) (world o) (rerunEffect (activeJobs (final o)) (eff p))
  | _, _ => mkPolling (since p) (final o) (world o) (eff p)
  end.

End Timed.

Arguments NoTimer {W}.
Arguments Overlap {W} start.

(** A server that answers every status query with 404 after 200 ms. *)
Definition slow (q : Request) (u : unit) : Z := 200.

Definition tracking_j1 : Polling unit := polling 0 (tracking [j1] []) tt [].

(** ** General facts *)

Lemma isActive_not_terminal (s : Status) : isActive s = negb (isTerminal s).
Proof. destruct s; reflexivity. Qed.

Lemma queryFailed_pollResult (r : Reply JobInfo) :
  queryFailed r = true -> pollResult r = None.
Proof. destruct r as [|[j|]|b]; simpl; congruence. Qed.

Section Facts.

Variable W : Type.
Variable srv : Server W.

Lemma run_bind {A B : Type} (p : Prog A) (f : A -> Prog B) :
  forall st w,
    run srv (bind p f) st w =
    let o := run srv p st w in
    let o' := run srv (f (ret o)) (final o) (world o) in
    mkOutcome (ret o') (final o') (world o') (requests o ++ requests o').
Proof.
  induction p as [a|u k IH|i k IH|k IH|d k IH]; intros st w; simpl.
  - destruct (run srv (f a) st w); reflexivity.
  - apply IH.
  - destruct (srv_getJob srv i w) as [r w']. rewrite IH. reflexivity.
  - destruct (srv_getJobs srv w) as [r w']. rewrite IH. reflexivity.
  - destruct (srv_upload srv d w) as [r w']. rewrite IH. reflexivity.
Qed.

Lemma run_pollJobStatus (jobId : string) (st : State) (w : W) :
  run srv (pollJobStatus jobId) st w =
  mkOutcome (pollResult (fst (srv_getJob srv jobId w))) st
            (snd (srv_getJob srv jobId w)) [ReqGetJob jobId].
Proof.
  simpl. destruct (srv_getJob srv jobId w) as [[|[j|]|b] w']; reflexivity.
Qed.

(** The loop only appends to its two arrays. *)
Lemma run_forActiveJobs_acc (l : list JobInfo) :
  forall u n st w,
    run srv (forActiveJobs l u n) st w =
    let o := run srv (forActiveJobs l [] []) st w in
    mkOutcome (u ++ fst (ret o), n ++ snd (ret o)) st (world o) (requests o).
Proof.
  induction l as [|job rest IH]; intros u n st w.
  - simpl. rewrite !app_nil_r. reflexivity.
  - simpl. destruct (srv_getJob srv (job_id job) w) as [[|[j|]|b] w']; simpl;
      try destruct (isTerminal (status j)); simpl;
      rewrite (IH _ _ st w'); symmetry; rewrite (IH _ _ st w'); simpl;
      rewrite <- ?app_assoc; reflexivity.
Qed.

Lemma run_forActiveJobs_cons (job : JobInfo) (rest : list JobInfo) (st : State) (w : W) :
  run srv (forActiveJobs (job :: rest) [] []) st w =
  let r := srv_getJob srv (job_id job) w in
  let o := run srv (forActiveJobs rest [] []) st (snd r) in
  mkOutcome (kept job (pollResult (fst r)) ++ fst (ret o),
             finished (pollResult (fst r)) ++ snd (ret o))
            st (world o) (ReqGetJob (job_id job) :: requests o).
Proof.
  simpl. destruct (srv_getJob srv (job_id job) w) as [[|[j|]|b] w']; simpl;
    try destruct (isTerminal (status j)); simpl;
    rewrite (run_forActiveJobs_acc rest _ _ st w'); reflexivity.
Qed.

Lemma run_forActiveJobs_app (l1 l2 : list JobInfo) :
  forall st w,
    run srv (forActiveJobs (l1 ++ l2) [] []) st w =
    let o1 := run srv (forActiveJobs l1 [] []) st w in
    let o2 := run srv (forActiveJobs l2 [] []) st (world o1) in
    mkOutcome (fst (ret o1) ++ fst (ret o2), snd (ret o1) ++ snd (ret o2))
              st (world o2) (requests o1 ++ requests o2).
Proof.
  induction l1 as [|job rest IH]; intros st w.
  - simpl. destruct (run srv (forActiveJobs l2 [] []) st w) as [[u n] s' w' q] eqn:E.
    simpl. generalize (run_forActiveJobs_acc l2 [] [] st w). rewrite E. simpl.
    congruence.
  - rewrite <- app_comm_cons, !run_forActiveJobs_cons. simpl.
    rewrite IH. simpl. rewrite !app_assoc. reflexivity.
Qed.

Lemma final_forActiveJobs (l : list JobInfo) (st : State) (w : W) :
  final (run srv (forActiveJobs l [] []) st w) = st.
Proof.
  destruct l as [|job rest]; [reflexivity|].
  rewrite run_forActiveJobs_cons. reflexivity.
Qed.

(** The state a tick leaves, from what its loop computed. *)
Lemma run_pollIntervalCallback (a : list JobInfo) (st : State) (w : W) :
  run srv (pollIntervalCallback a) st w =
  let o := run srv (forActiveJobs a [] []) st w in
  mkOutcome tt
    (setActiveJobs (fst (ret o))
       (setCompletedJobs_fn (fun prev => snd (ret o) ++ prev) st))
    (world o) (requests o).
Proof.
  unfold pollIntervalCallback. rewrite run_bind. simpl.
  rewrite final_forActiveJobs.
  destruct (run srv (forActiveJobs a [] []) st w) as [[u n] s' w' q]. simpl.
  destruct n as [|x n]; simpl; rewrite app_nil_r.
  - destruct st; reflexivity.
  - reflexivity.
Qed.

Lemma tick_activeJobs (st : State) (w : W) :
  activeJobs (final (tick srv st w)) =
  fst (ret (run srv (forActiveJobs (activeJobs st) [] []) st w)).
Proof. unfold tick. rewrite run_pollIntervalCallback. reflexivity. Qed.

Lemma tick_completedJobs (st : State) (w : W) :
  completedJobs (final (tick srv st w)) =
  snd (ret (run srv (forActiveJobs (activeJobs st) [] []) st w))
  ++ completedJobs st.
Proof. unfold tick. rewrite run_pollIntervalCallback. reflexivity. Qed.

Lemma tick_world (st : State) (w : W) :
  world (tick srv st w) =
  world (run srv (forActiveJobs (activeJobs st) [] []) st w).
Proof. unfold tick. rewrite run_pollIntervalCallback. reflexivity. Qed.

End Facts.

(** ** One tick, job by job *)

Section Tick.

Variable W : Type.
Variable srv : Server W.

(** The tick on [before ++ job :: after], seen from the iteration for
    [job]: what the loop made of [before], then of [job], then of
    [after] from the world the query for [job] left. *)
Lemma tick_split (st : State) (w : W) (before after : list JobInfo) (job : JobInfo) :
  activeJobs st = before ++ job :: after ->
  let o1 := run srv (forActiveJobs before [] []) st w in
  let q := srv_getJob srv (job_id job) (world o1) in
  let o2 := run srv (forActiveJobs after [] []) st (snd q) in
  activeJobs (final (tick srv st w)) =
    fst (ret o1) ++ kept job (pollResult (fst q)) ++ fst (ret o2) /\
  completedJobs (final (tick srv st w)) =
    (snd (ret o1) ++ finished (pollResult (fst q)) ++ snd (ret o2))
    ++ completedJobs st.
Proof.
  intros E o1 q o2.
  rewrite tick_activeJobs, tick_completedJobs, E.
  rewrite run_forActiveJobs_app. cbv zeta. cbn [ret world fst snd].
  rewrite run_forActiveJobs_cons. cbv zeta. cbn [ret world fst snd].
  split; reflexivity.
Qed.

(** C1. Poll-failure isolation.  In a tick over
    [before ++ J :: after], when the status query for [J] fails (the
    fetch is rejected or the response is not a success), the next
    active list is what the jobs of [before] gave, then [J] itself, the
    very record it was, then what the jobs of [after] gave; and the
    completed list receives what the other jobs gave and nothing from
    [J].  So [J] stays tracked, unchanged, and the outcome of every
    other job is the one its own query gave. *)
Theorem poll_failure_isolation
  (st : State) (w : W) (before after : list JobInfo) (J : JobInfo) :
  activeJobs st = before ++ J :: after ->
  let o1 := run srv (forActiveJobs before [] []) st w in
  let q := srv_getJob srv (job_id J) (world o1) in
  let o2 := run srv (forActiveJobs after [] []) st (snd q) in
  queryFailed (fst q) = true ->
  activeJobs (final (tick srv st w)) = fst (ret o1) ++ J :: fst (ret o2) /\
  In J (activeJobs (final (tick srv st w))) /\
  completedJobs (final (tick srv st w)) =
    (snd (ret o1) ++ snd (ret o2)) ++ completedJobs st.
Proof.
  intros E o1 q o2 F.
  destruct (tick_split st w before after J E) as [Ha Hc].
  fold o1 q o2 in Ha, Hc.
  rewrite (queryFailed_pollResult _ F) in Ha, Hc. simpl in Ha, Hc.
  repeat split; trivial.
  rewrite Ha. apply in_or_app. right. left. reflexivity.
Qed.

(** C2. Routing of a successful query.  In a tick over
    [before ++ J :: after], when the status query for [J] returns the
    record [updated]: if [updated] is COMPLETED or FAILED it goes to
    the records this tick puts in front of the completed list, and the
    iteration for [J] gives nothing to the next active list; if it is
    PENDING or PROCESSING it takes the place of [J] in the next active
    list and nothing is completed for [J]. *)
Theorem poll_success_routing
  (st : State) (w : W) (before after : list JobInfo) (J updated : JobInfo) :
  activeJobs st = before ++ J :: after ->
  let o1 := run srv (forActiveJobs before [] []) st w in
  let q := srv_getJob srv (job_id J) (world o1) in
  let o2 := run srv (forActiveJobs after [] []) st (snd q) in
  fst q = Ok2xx (Some updated) ->
  let st' := final (tick srv st w) in
  (status updated = COMPLETED \/ status updated = FAILED ->
     activeJobs st' = fst (ret o1) ++ fst (ret o2) /\
     completedJobs st' =
       (snd (ret o1) ++ updated :: snd (ret o2)) ++ completedJobs st) /\
  (status updated = PENDING \/ status updated = PROCESSING ->
     activeJobs st' = fst (ret o1) ++ updated :: fst (ret o2) /\
     completedJobs st' = (snd (ret o1) ++ snd (ret o2)) ++ completedJobs st).
Proof.
  intros E o1 q o2 R st'.
  destruct (tick_split st w before after J E) as [Ha Hc].
  fold o1 q o2 st' in Ha, Hc. rewrite R in Ha, Hc. simpl in Ha, Hc.
  split; intros [S|S]; rewrite S in Ha, Hc; simpl in Ha, Hc; split; assumption.
Qed.

(** C3. Completion order.  A tick puts the records it found terminal, in
    the order of its queries, in front of the completed list, whose
    former content follows unchanged.  When the queries for [A] and,
    later in the same tick, for [B] return the terminal records [a] and
    [b], then [a] comes before [b] in the block, whatever the other
    jobs gave. *)
Theorem completion_order
  (st : State) (w : W) (l1 l2 l3 : list JobInfo) (A B a b : JobInfo) :
  activeJobs st = l1 ++ A :: l2 ++ B :: l3 ->
  let o1 := run srv (forActiveJobs l1 [] []) st w in
  let qA := srv_getJob srv (job_id A) (world o1) in
  let o2 := run srv (forActiveJobs l2 [] []) st (snd qA) in
  let qB := srv_getJob srv (job_id B) (world o2) in
  let o3 := run srv (forActiveJobs l3 [] []) st (snd qB) in
  fst qA = Ok2xx (Some a) -> isTerminal (status a) = true ->
  fst qB = Ok2xx (Some b) -> isTerminal (status b) = true ->
  completedJobs (final (tick srv st w)) =
    (snd (ret o1) ++ a :: snd (ret o2) ++ b :: snd (ret o3))
    ++ completedJobs st.
Proof.
  intros E o1 qA o2 qB o3 RA TA RB TB.
  destruct (tick_split st w l1 (l2 ++ B :: l3) A E) as [_ Hc].
  fold o1 qA in Hc. rewrite Hc. clear Hc.
  rewrite run_forActiveJobs_app. cbv zeta. cbn [ret world fst snd]. fold o2.
  rewrite run_forActiveJobs_cons. cbv zeta. cbn [ret world fst snd]. fold qB o3.
  rewrite RA, RB. simpl. rewrite TA, TB. reflexivity.
Qed.

End Tick.

(** The tick of [three_active] against [one_lost]: [j2], whose query is
    lost, is the whole of the next active list. *)
Lemma poll_failure_isolation_witness :
  activeJobs three_active = [j1] ++ j2 :: [j3] /\
  activeJobs (final (tick scripted three_active one_lost)) = [j2] /\
  In j2 (activeJobs (final (tick scripted three_active one_lost))) /\
  completedJobs (final (tick scripted three_active one_lost)) =
    [j1_done; j3_failed; j0_done].
Proof.
  split; [reflexivity|].
  exact (@poll_failure_isolation Script scripted three_active one_lost
           [j1] [j3] j2 eq_refl eq_refl).
Defined.

(** In the same tick [j1], reported completed, goes to the front of the
    completed list. *)
Lemma poll_success_routing_witness :
  activeJobs three_active = [] ++ j1 :: [j2; j3] /\
  (status j1_done = COMPLETED \/ status j1_done = FAILED ->
   activeJobs (final (tick scripted three_active one_lost)) = [j2] /\
   completedJobs (final (tick scripted three_active one_lost)) =
     [j1_done; j3_failed; j0_done]).
Proof.
  split; [reflexivity|].
  exact (proj1 (@poll_success_routing Script scripted three_active one_lost
                  [] [j2; j3] j1 j1_done eq_refl eq_refl)).
Defined.

(** In the same tick [j1] and, after it, [j3] are reported terminal:
    they enter the completed list in that order. *)
Lemma completion_order_witness :
  activeJobs three_active = [] ++ j1 :: [j2] ++ j3 :: [] /\
  completedJobs (final (tick scripted three_active one_lost)) =
    [j1_done; j3_failed; j0_done].
Proof.
  split; [reflexivity|].
  exact (@completion_order Script scripted three_active one_lost
           [] [j2] [] j1 j3 j1_done j3_failed
           eq_refl eq_refl eq_refl eq_refl eq_refl).
Defined.

(** ** The upload *)

Section Upload.

Variable W : Type.
Variable srv : Server W.

(** With at least one file the handler posts the form once; what it
    does next depends on the reply alone. *)
Lemma run_handleUpload
  (fs : list File) (ledger fy : string) (st : State) (w : W) :
  fs <> [] ->
  let form := uploadForm fs ledger fy in
  let q := srv_upload srv form w in
  run srv (handleUpload fs ledger fy) st w =
  sent (ReqPostUpload form)
    (run srv (resolveUpload (fst q)
                (snd (settle (handleUpload fs ledger fy) st)))
         (setSuccess None (setError None (setIsUploading true st)))
         (snd q)).
Proof.
  intros NE form q. unfold handleUpload.
  destruct fs as [|f fs']; [contradiction|].
  cbn [List.length Nat.eqb]. cbn [run settle]. fold form. fold q.
  destruct q as [r w']. reflexivity.
Qed.

(** C7. An upload with no file is refused on the spot: the handler sets
    the validation message and is finished, with no request pending; run
    against any server it sends nothing, leaves the server as it was, and
    changes neither job list. *)
Theorem upload_without_files
  (fs : list File) (ledger fy : string) (st : State) (w : W) :
  fs = [] ->
  let o := run srv (handleUpload fs ledger fy) st w in
  settle (handleUpload fs ledger fy) st =
    (setError (Some "Please select at least one file to upload.") st, Ret tt) /\
  requests o = [] /\
  world o = w /\
  errorMsg (final o) = Some "Please select at least one file to upload." /\
  activeJobs (final o) = activeJobs st /\
  completedJobs (final o) = completedJobs st.
Proof.
  intros ->. cbv zeta. unfold handleUpload. cbn [List.length Nat.eqb run settle].
  repeat split.
Qed.

(** C8, as the code has it.  When the upload is answered by a response
    that is not a success: a [detail] that is a non-empty string is
    shown as it is; when [detail] is missing or is the empty string the
    message is "Failed to upload documents."; when the body is not JSON
    the message is the one of a network error.  When the request itself
    fails the message is the one of a network error.  In all these cases
    both job lists are as before. *)
Theorem upload_failure
  (fs : list File) (ledger fy : string) (st : State) (w : W) :
  fs <> [] ->
  let q := fst (srv_upload srv (uploadForm fs ledger fy) w) in
  let o := run srv (handleUpload fs ledger fy) st w in
  (forall e d, q = Non2xx (Some e) -> detail e = Some d -> d <> "" ->
     errorMsg (final o) = Some d) /\
  (forall e, q = Non2xx (Some e) -> detail e = None \/ detail e = Some "" ->
     errorMsg (final o) = Some "Failed to upload documents.") /\
  (q = Non2xx None \/ q = NetworkError ->
     errorMsg (final o) = Some "Network error: Could not upload documents.") /\
  ((exists b, q = Non2xx b) \/ q = NetworkError ->
     activeJobs (final o) = activeJobs st /\
     completedJobs (final o) = completedJobs st).
Proof.
  intros NE q o. unfold o. rewrite (run_handleUpload ledger fy st w NE).
  cbv zeta. fold q. unfold handleUpload.
  destruct fs as [|f fs']; [contradiction|].
  cbn [List.length Nat.eqb settle snd resolveUpload].
  split; [|split; [|split]].
  - intros e d -> D N. cbn. rewrite D. destruct d; [contradiction|reflexivity].
  - intros e -> [D|D]; cbn; rewrite D; reflexivity.
  - intros [-> | ->]; reflexivity.
  - intros [[[e|] ->] | ->]; split; reflexivity.
Qed.

(** C10. A successful upload puts the records made of the jobs of the
    response, in the order of the response, in front of the active
    list, and leaves the completed list alone, whatever status the
    response gives each job; a new record has the id, file name and
    status of the response and the ledger name and financial year of
    the form. *)
Theorem upload_prepends
  (fs : list File) (ledger fy : string) (st : State) (w : W) (js : list JobInfo) :
  fs <> [] ->
  fst (srv_upload srv (uploadForm fs ledger fy) w)
    = Ok2xx (Some (mkJobsBody (Some js))) ->
  let o := run srv (handleUpload fs ledger fy) st w in
  activeJobs (final o) = map (newJob ledger fy) js ++ activeJobs st /\
  completedJobs (final o) = completedJobs st /\
  Forall2 (fun j n =>
             job_id n = job_id j /\ filename n = filename j /\
             status n = status j /\
             ledger_name n = Some ledger /\ financial_year n = Some fy)
          js (map (newJob ledger fy) js).
Proof.
  intros NE R o. unfold o. rewrite (run_handleUpload ledger fy st w NE).
  cbv zeta. rewrite R. unfold handleUpload.
  destruct fs as [|f fs']; [contradiction|].
  cbn [List.length Nat.eqb settle snd resolveUpload jobs].
  repeat split.
  clear R o. induction js as [|j js IH]; simpl; constructor; auto.
Qed.

End Upload.

(** An upload with no file from [one_active]. *)
Lemma upload_without_files_witness :
  let o := run scripted (handleUpload [] "ACME" "2023-24") one_active
               (upload_answer NetworkError) in
  requests o = [] /\
  errorMsg (final o) = Some "Please select at least one file to upload." /\
  activeJobs (final o) = [j3].
Proof.
  destruct (@upload_without_files Script scripted [] "ACME" "2023-24"
              one_active (upload_answer NetworkError) eq_refl)
    as (_ & Hq & _ & He & Ha & _).
  exact (conj Hq (conj He Ha)).
Defined.

(** The server refuses the upload of [a.pdf] and says why. *)
Lemma upload_failure_witness :
  [a_pdf] <> [] /\
  let o := run scripted (handleUpload [a_pdf] "ACME" "2023-24") one_active
               (upload_answer refused) in
  errorMsg (final o) = Some "Only PDF files are accepted" /\
  activeJobs (final o) = [j3] /\
  completedJobs (final o) = [j0_done].
Proof.
  assert (NE : [a_pdf] <> []) by discriminate.
  split; [exact NE|].
  destruct (@upload_failure Script scripted [a_pdf] "ACME" "2023-24"
              one_active (upload_answer refused) NE)
    as (Hd & _ & _ & Hj).
  split.
  - apply (Hd (mkErrorBody (Some "Only PDF files are accepted"))
              "Only PDF files are accepted"); [reflexivity|reflexivity|discriminate].
  - apply Hj. left. eexists. reflexivity.
Defined.

(** C8, as stated, fails for a [detail] that is the empty string: the
    message shown is the generic one, not the [detail]. *)
Lemma empty_detail_not_surfaced :
  let o := run scripted (handleUpload [a_pdf] "ACME" "2023-24") one_active
               (upload_answer nothing_said) in
  fst (srv_upload scripted (uploadForm [a_pdf] "ACME" "2023-24")
                  (upload_answer nothing_said))
    = Non2xx (Some (mkErrorBody (Some ""))) /\
  errorMsg (final o) = Some "Failed to upload documents." /\
  errorMsg (final o) <> Some "".
Proof.
  cbv zeta. split; [reflexivity|]. split; [reflexivity|].
  vm_compute. discriminate.
Qed.

(** An upload of two files answered by [queued]: both jobs, the
    completed one too, are in front of [j3] in the active list. *)
Lemma upload_prepends_witness :
  [a_pdf; b_pdf] <> [] /\
  let o := run scripted (handleUpload [a_pdf; b_pdf] "ACME" "2023-24") one_active
               (upload_answer queued) in
  activeJobs (final o) =
    [job "j4" "a.pdf" PENDING; job "j5" "b.pdf" COMPLETED; j3] /\
  completedJobs (final o) = [j0_done].
Proof.
  assert (NE : [a_pdf; b_pdf] <> []) by discriminate.
  split; [exact NE|].
  destruct (@upload_prepends Script scripted [a_pdf; b_pdf] "ACME" "2023-24"
              one_active (upload_answer queued) _ NE eq_refl)
    as (Ha & Hc & _).
  exact (conj Ha Hc).
Defined.

(** ** Ticks in a row *)

Section Ticks.

Variable W : Type.
Variable srv : Server W.

Lemma forActiveJobs_requests (l : list JobInfo) :
  forall st w,
    requests (run srv (forActiveJobs l [] []) st w) =
    map (fun j => ReqGetJob (job_id j)) l.
Proof.
  induction l as [|job rest IH]; intros st w; [reflexivity|].
  rewrite run_forActiveJobs_cons. cbv zeta. cbn [requests map].
  rewrite IH. reflexivity.
Qed.

Lemma forActiveJobs_finished_terminal (l : list JobInfo) :
  forall st w, Forall terminal (snd (ret (run srv (forActiveJobs l [] []) st w))).
Proof.
  induction l as [|job rest IH]; intros st w; [constructor|].
  rewrite run_forActiveJobs_cons. cbv zeta. cbn [ret snd].
  apply Forall_app. split; [|apply IH].
  destruct (pollResult (fst (srv_getJob srv (job_id job) w))) as [u|]; simpl;
    [|constructor].
  destruct (isTerminal (status u)) eqn:T; repeat constructor. exact T.
Qed.

Lemma forActiveJobs_kept_unfinished (l : list JobInfo) :
  forall st w,
    Forall unfinished l ->
    Forall unfinished (fst (ret (run srv (forActiveJobs l [] []) st w))).
Proof.
  induction l as [|job rest IH]; intros st w F; [constructor|].
  rewrite run_forActiveJobs_cons. cbv zeta. cbn [ret fst].
  inversion F as [|? ? Fj Fr]; subst.
  apply Forall_app. split; [|apply IH; exact Fr].
  destruct (pollResult (fst (srv_getJob srv (job_id job) w))) as [u|]; simpl.
  - destruct (isTerminal (status u)) eqn:T; repeat constructor.
    unfold unfinished. rewrite isActive_not_terminal, T. reflexivity.
  - repeat constructor. exact Fj.
Qed.

Lemma tick_requests (st : State) (w : W) :
  requests (tick srv st w) = map (fun j => ReqGetJob (job_id j)) (activeJobs st).
Proof.
  unfold tick. rewrite run_pollIntervalCallback. cbv zeta. cbn [requests].
  apply forActiveJobs_requests.
Qed.

Lemma tick_errorMsg (st : State) (w : W) :
  errorMsg (final (tick srv st w)) = errorMsg st.
Proof. unfold tick. rewrite run_pollIntervalCallback. reflexivity. Qed.

Lemma tick_keeps_failed (st : State) (w : W) (J : JobInfo) :
  (forall w', queryFailed (fst (srv_getJob srv (job_id J) w')) = true) ->
  In J (activeJobs st) ->
  In J (activeJobs (final (tick srv st w))).
Proof.
  intros F I. destruct (in_split _ _ I) as (before & after & E).
  destruct (tick_split srv st w before after J E) as [Ha _].
  rewrite Ha, (queryFailed_pollResult _ (F _)). simpl.
  apply in_or_app. right. left. reflexivity.
Qed.

Lemma ticks_completed_grow (n : nat) :
  forall st w,
    exists newly,
      completedJobs (fst (ticks srv n st w)) = newly ++ completedJobs st /\
      Forall terminal newly.
Proof.
  induction n as [|n IH]; intros st w.
  - exists []. split; [reflexivity|constructor].
  - simpl. destruct (IH (final (tick srv st w)) (world (tick srv st w)))
      as (newly & E & T).
    rewrite tick_completedJobs in E.
    exists (newly ++ snd (ret (run srv (forActiveJobs (activeJobs st) [] []) st w))).
    split.
    + rewrite E, app_assoc. reflexivity.
    + apply Forall_app. split; [exact T|apply forActiveJobs_finished_terminal].
Qed.

Lemma ticks_active_unfinished (n : nat) :
  forall st w,
    Forall unfinished (activeJobs st) ->
    Forall unfinished (activeJobs (fst (ticks srv n st w))).
Proof.
  induction n as [|n IH]; intros st w F; [exact F|].
  simpl. apply IH. rewrite tick_activeJobs.
  apply forActiveJobs_kept_unfinished. exact F.
Qed.

Lemma loadJobs_sorts (st : State) (w : W) :
  Forall unfinished (activeJobs st) -> Forall terminal (completedJobs st) ->
  Forall unfinished (activeJobs (final (run srv loadJobs st w))) /\
  Forall terminal (completedJobs (final (run srv loadJobs st w))).
Proof.
  intros Fa Fc. unfold loadJobs. cbn [run].
  destruct (srv_getJobs srv w) as [[|[data|]|b] w']; cbn; auto.
  split; apply Forall_forall; intros j I; apply filter_In in I; apply I.
Qed.

(** C9. A failed status query is absorbed.  [pollJobStatus] returns
    [null] when the fetch is rejected and when the response is not a
    success, whatever its status code; the tick then keeps the record it
    had.  So when the server fails every query for the id of [J] (it no
    longer knows the job, say), [J] is still in the active list after
    any number of ticks, and no tick touches the error message of the
    page. *)
Theorem failed_poll_is_absorbed (J : JobInfo) (st : State) (w : W) (n : nat) :
  (forall w', queryFailed (fst (srv_getJob srv (job_id J) w')) = true) ->
  In J (activeJobs st) ->
  (forall st' w', ret (run srv (pollJobStatus (job_id J)) st' w') = None) /\
  In J (activeJobs (fst (ticks srv n st w))) /\
  errorMsg (fst (ticks srv n st w)) = errorMsg st.
Proof.
  intros F I. split; [|revert st w I; induction n as [|n IH]; intros st w I].
  - intros st' w'. rewrite run_pollJobStatus. cbn [ret].
    apply queryFailed_pollResult, F.
  - split; [exact I|reflexivity].
  - simpl. destruct (IH (final (tick srv st w)) (world (tick srv st w))) as [Hi He].
    + apply tick_keeps_failed; assumption.
    + split; [exact Hi|]. rewrite He. apply tick_errorMsg.
Qed.

Lemma forActiveJobs_reportedTerminal (l : list JobInfo) :
  forall st w,
    snd (ret (run srv (forActiveJobs l [] []) st w)) = reportedTerminal srv l w.
Proof.
  induction l as [|job rest IH]; intros st w; [reflexivity|].
  rewrite run_forActiveJobs_cons. cbv zeta. cbn [ret snd reportedTerminal].
  rewrite IH.
  destruct (fst (srv_getJob srv (job_id job) w)) as [|[u|]|b]; cbn;
    try reflexivity.
  unfold isTerminal. destruct (Status_eqb (status u) COMPLETED
                               || Status_eqb (status u) FAILED); reflexivity.
Qed.

(** C5, as the code has it.  Over any number of ticks the completed list
    only grows at the front, by records that are COMPLETED or FAILED: what
    it held stays, in place, as the end of the list.  A tick queries the
    records of the active list, all of them and in order, and no other.
    After the initial load the active list holds only PENDING and
    PROCESSING records, and ticks keep it so; then no terminal record
    is queried again.  The records a tick puts in front of the completed
    list are exactly those the server reported COMPLETED or FAILED to
    its queries, in the order of the queries; in particular the record
    returned for a job of the active list with such a status is in the
    completed list after the tick.  And the jobs of an accepted upload
    are in the active list whatever their status, and the tick made from
    that list queries each of them. *)
Theorem completed_is_settled (st : State) (w : W) (n : nat) :
  (exists newly,
      completedJobs (fst (ticks srv n st w)) = newly ++ completedJobs st /\
      Forall terminal newly) /\
  requests (tick srv st w) = map (fun j => ReqGetJob (job_id j)) (activeJobs st) /\
  (Forall unfinished (activeJobs st) ->
   Forall unfinished (activeJobs (fst (ticks srv n st w)))) /\
  Forall unfinished (activeJobs (final (run srv loadJobs initialState w))) /\
  Forall terminal (completedJobs (final (run srv loadJobs initialState w))) /\
  completedJobs (final (tick srv st w)) =
    reportedTerminal srv (activeJobs st) w ++ completedJobs st /\
  (forall before after J updated,
      activeJobs st = before ++ J :: after ->
      fst (srv_getJob srv (job_id J)
             (world (run srv (forActiveJobs before [] []) st w)))
        = Ok2xx (Some updated) ->
      status updated = COMPLETED \/ status updated = FAILED ->
      In updated (completedJobs (final (tick srv st w)))) /\
  (forall fs ledger fy js j,
      fs <> [] ->
      fst (srv_upload srv (uploadForm fs ledger fy) w)
        = Ok2xx (Some (mkJobsBody (Some js))) ->
      In j js ->
      let o := run srv (handleUpload fs ledger fy) st w in
      In (newJob ledger fy j) (activeJobs (final o)) /\
      status (newJob ledger fy j) = status j /\
      In (ReqGetJob (job_id j)) (requests (tick srv (final o) (world o)))).
Proof.
  split; [apply ticks_completed_grow|].
  split; [apply tick_requests|].
  split; [apply ticks_active_unfinished|].
  split; [apply loadJobs_sorts; constructor|].
  split; [apply loadJobs_sorts; constructor|].
  split; [|split].
  - rewrite tick_completedJobs, forActiveJobs_reportedTerminal. reflexivity.
  - intros before after J updated E R S.
    destruct (tick_split srv st w before after J E) as [_ Hc].
    rewrite Hc, R. cbn [pollResult finished].
    replace (isTerminal (status updated)) with true
      by (destruct S as [S|S]; rewrite S; reflexivity).
    apply in_or_app. left. apply in_or_app. right. left. reflexivity.
  - intros fs ledger fy js j NE R I o.
    assert (A : activeJobs (final o) = map (newJob ledger fy) js ++ activeJobs st).
    { unfold o. rewrite (@run_handleUpload W srv fs ledger fy st w NE).
      cbv zeta. rewrite R. unfold handleUpload.
      destruct fs as [|f fs']; [contradiction|]. reflexivity. }
    split; [|split].
    + rewrite A. apply in_or_app. left. apply in_map, I.
    + reflexivity.
    + rewrite tick_requests, A, map_app. apply in_or_app. left.
      rewrite map_map. apply (in_map (fun x => ReqGetJob (job_id (newJob ledger fy x)))), I.
Qed.

End Ticks.

(** A server that has lost [j1] and [j2]: five ticks later both are
    still in the active list. *)
Lemma failed_poll_is_absorbed_witness :
  In j1 (activeJobs (tracking [j1; j2] [])) /\
  In j1 (activeJobs (fst (ticks forgetful 5 (tracking [j1; j2] []) tt))) /\
  errorMsg (fst (ticks forgetful 5 (tracking [j1; j2] []) tt)) = None.
Proof.
  assert (I : In j1 (activeJobs (tracking [j1; j2] []))) by (left; reflexivity).
  split; [exact I|].
  exact (proj2 (@failed_poll_is_absorbed unit forgetful j1
                  (tracking [j1; j2] []) tt 5 (fun _ => eq_refl) I)).
Defined.

(** [three_active] holds unfinished records only, and so does the
    active list after a tick. *)
Lemma completed_is_settled_witness :
  Forall unfinished (activeJobs three_active) /\
  Forall unfinished (activeJobs (fst (ticks scripted 1 three_active one_lost))) /\
  completedJobs (final (tick scripted three_active one_lost))
    = [j1_done; j3_failed] ++ [j0_done].
Proof.
  assert (F : Forall unfinished (activeJobs three_active))
    by (repeat constructor).
  split; [exact F|].
  pose proof (@completed_is_settled Script scripted three_active one_lost 1) as T.
  exact (conj (proj1 (proj2 (proj2 T)) F)
              (proj1 (proj2 (proj2 (proj2 (proj2 (proj2 T))))))).
Defined.

(** C5, as stated, fails after an upload the server answers with a job
    that is already COMPLETED.  The record the page holds is COMPLETED
    and sits in the active list; the next tick queries it again, and the
    record of the job gets a result it did not have. *)
Lemma terminal_record_is_requeried :
  let o := run scripted (handleUpload [a_pdf] "ACME" "2023-24") initialState
               finished_at_once in
  let held := job "j1" "a.pdf" COMPLETED in
  let t := tick scripted (final o) (world o) in
  activeJobs (final o) = [held] /\
  completedJobs (final o) = [] /\
  status held = COMPLETED /\
  requests t = [ReqGetJob (job_id held)] /\
  activeJobs (final t) = [] /\
  completedJobs (final t) = [j1_done] /\
  job_id j1_done = job_id held /\
  result held = None /\
  result j1_done = Some (JObj [("amount", JNum 100)]).
Proof. cbv zeta. repeat split. Qed.

(** ** The timer of the polling effect *)

Lemma cleanup_clears (e : option nat * Timers) :
  owns e -> live (cleanup (fst e) (snd e)) = [].
Proof.
  destruct e as [[h|] t]; unfold owns; simpl; [|trivial].
  intros [i E]. rewrite E. simpl. rewrite Nat.eqb_refl. reflexivity.
Qed.

Lemma rerunEffect_owns (a : list JobInfo) (e : option nat * Timers) :
  owns e ->
  owns (rerunEffect a e) /\ scheduled (rerunEffect a e) = expected a.
Proof.
  intros O. unfold rerunEffect, pollingEffect, scheduled, owns.
  pose proof (cleanup_clears e O) as C.
  destruct a as [|j a']; simpl.
  - split; exact C || (rewrite C; reflexivity).
  - rewrite C. simpl. split; [eexists; reflexivity|reflexivity].
Qed.

Lemma effectAfter_snoc (renders : list (list JobInfo)) (a : list JobInfo) :
  effectAfter (renders ++ [a]) = rerunEffect a (effectAfter renders).
Proof. unfold effectAfter. rewrite fold_left_app. reflexivity. Qed.

Lemma effectAfter_owns (renders : list (list JobInfo)) : owns (effectAfter renders).
Proof.
  induction renders as [|a renders IH] using rev_ind.
  - reflexivity.
  - rewrite effectAfter_snoc. apply rerunEffect_owns, IH.
Qed.

Lemma handleUpload_adds
  (W : Type) (srv : Server W)
  (fs : list File) (ledger fy : string) (st : State) (w : W) (js : list JobInfo) :
  fs <> [] ->
  fst (srv_upload srv (uploadForm fs ledger fy) w)
    = Ok2xx (Some (mkJobsBody (Some js))) ->
  activeJobs (final (run srv (handleUpload fs ledger fy) st w))
    = map (newJob ledger fy) js ++ activeJobs st.
Proof.
  intros NE R. rewrite (run_handleUpload srv ledger fy st w NE).
  cbv zeta. rewrite R. unfold handleUpload.
  destruct fs as [|f fs']; [contradiction|]. reflexivity.
Qed.

Section Cadence.

Variable W : Type.
Variable srv : Server W.
Variable latency : Request -> W -> Z.

Lemma polling_live (t : Z) (st : State) (w : W) (renders : list (list JobInfo)) :
  match activeJobs st with
  | [] => live (snd (eff (polling t st w renders))) = []
  | _ :: _ =>
      exists h,
        live (snd (eff (polling t st w renders)))
          = [(h, mkInterval 3000 (pollIntervalCallback (activeJobs st)))]
  end.
Proof.
  unfold polling. cbn [eff]. rewrite effectAfter_snoc.
  destruct (@rerunEffect_owns (activeJobs st) _ (effectAfter_owns renders))
    as [O S].
  unfold scheduled in S. unfold owns in O.
  destruct (activeJobs st) as [|j a'].
  - destruct (live (snd (rerunEffect [] (effectAfter renders)))); [reflexivity|].
    discriminate S.
  - destruct (fst (rerunEffect (j :: a') (effectAfter renders))) as [h|].
    + destruct O as [i E]. exists h. rewrite E in S |- *.
      cbn in S. inversion S. reflexivity.
    + rewrite O in S. discriminate S.
Qed.

Lemma nextTick_none (t : Z) (st : State) (w : W) (renders : list (list JobInfo)) :
  activeJobs st = [] -> nextTick srv latency (polling t st w renders) = NoTimer.
Proof.
  intros E. pose proof (polling_live t st w renders) as L. rewrite E in L.
  unfold nextTick. rewrite L. reflexivity.
Qed.

Lemma nextTick_fires (t : Z) (st : State) (w : W) (renders : list (list JobInfo)) :
  activeJobs st <> [] ->
  (took srv latency (pollIntervalCallback (activeJobs st)) st w < 3000)%Z ->
  nextTick srv latency (polling t st w renders) =
  Ticked (t + 3000)
         (t + 3000 + took srv latency (pollIntervalCallback (activeJobs st)) st w)
         (polling (t + 3000 + took srv latency (pollIntervalCallback (activeJobs st)) st w)
                  (final (tick srv st w)) (world (tick srv st w))
                  (renders ++ [activeJobs st])).
Proof.
  intros NE D. pose proof (polling_live t st w renders) as L.
  destruct (activeJobs st) as [|j a'] eqn:E; [contradiction|].
  destruct L as [h L]. unfold nextTick. rewrite L.
  cbn [delay callback since shown net polling].
  apply Z.ltb_lt in D. rewrite D.
  unfold tick, polling. cbn [eff]. rewrite !E.
  rewrite (effectAfter_snoc (renders ++ [j :: a'])). reflexivity.
Qed.


End Cadence.



(** ** The two job lists as a partition of the known jobs *)

Section Partition.

Variable W : Type.
Variable srv : Server W.

Lemma filter_by_status (l : list JobInfo) :
  Permutation
    (filter (fun j => Status_eqb (status j) PENDING
                      || Status_eqb (status j) PROCESSING) l
     ++ filter (fun j => Status_eqb (status j) COMPLETED
                         || Status_eqb (status j) FAILED) l)
    l.
Proof.
  induction l as [|j l IH]; [constructor|].
  simpl. destruct (status j); simpl.
  - constructor. exact IH.
  - constructor. exact IH.
  - apply Permutation_sym, Permutation_cons_app, Permutation_sym, IH.
  - apply Permutation_sym, Permutation_cons_app, Permutation_sym, IH.
Qed.

(** The initial load splits the snapshot by status: every job of the
    list the server sent is in exactly one of the two lists. *)
Lemma loadJobs_partitions (w : W) (snapshot : list JobInfo) :
  fst (srv_getJobs srv w) = Ok2xx (Some (mkJobsBody (Some snapshot))) ->
  let st := final (run srv loadJobs initialState w) in
  Permutation (activeJobs st ++ completedJobs st) snapshot /\
  Forall unfinished (activeJobs st) /\
  Forall terminal (completedJobs st).
Proof.
  intros R st. split; [|apply loadJobs_sorts; constructor].
  unfold st, loadJobs. cbn [run].
  destruct (srv_getJobs srv w) as [r w']. simpl in R. subst r.
  cbn. apply filter_by_status.
Qed.

Lemma forActiveJobs_same_ids (l : list JobInfo) :
  answers_for_the_id srv ->
  forall st w,
    let r := ret (run srv (forActiveJobs l [] []) st w) in
    Permutation (map job_id (fst r ++ snd r)) (map job_id l).
Proof.
  intros Echo. induction l as [|job rest IH]; intros st w; [constructor|].
  rewrite run_forActiveJobs_cons. cbv zeta. cbn [ret fst snd].
  specialize (IH st (snd (srv_getJob srv (job_id job) w))). cbv zeta in IH.
  pose proof (Echo (job_id job) w) as Ej.
  destruct (fst (srv_getJob srv (job_id job) w)) as [|[u|]|b]; simpl.
  - constructor. exact IH.
  - pose proof (Ej u eq_refl) as Eu.
    destruct (isTerminal (status u)); simpl.
    + rewrite map_app. simpl. rewrite Eu.
      apply Permutation_sym, Permutation_cons_app. rewrite <- map_app.
      apply Permutation_sym, IH.
    + rewrite Eu. constructor. exact IH.
  - constructor. exact IH.
  - constructor. exact IH.
Qed.

(** A tick that runs with nothing in between keeps every tracked job in
    exactly one of the two lists. *)
Lemma tick_same_ids (st : State) (w : W) :
  answers_for_the_id srv ->
  let st' := final (tick srv st w) in
  Permutation (map job_id (activeJobs st' ++ completedJobs st'))
              (map job_id (activeJobs st ++ completedJobs st)).
Proof.
  intros Echo st'. unfold st'.
  rewrite tick_activeJobs, tick_completedJobs.
  rewrite app_assoc, !map_app.
  apply Permutation_app_tail. rewrite <- map_app.
  apply (forActiveJobs_same_ids (activeJobs st) Echo st w).
Qed.

End Partition.

(** C4. The partition is lost when an upload is answered during a tick.
    After the upload the page tracks [j4] and [j1]; when the waiting tick
    ends, it overwrites the active list with the list it computed from
    the array of its own render, [[j1]]: [j4] is then in neither list. *)
Theorem upload_during_tick_is_lost :
  map job_id (activeJobs (fst upload_answered)) = ["j4"; "j1"] /\
  completedJobs (fst upload_answered) = [] /\
  snd status_answered = Ret tt /\
  activeJobs (fst status_answered) = [j1_processing] /\
  completedJobs (fst status_answered) = [] /\
  ~ In "j4" (map job_id (activeJobs (fst status_answered)
                         ++ completedJobs (fst status_answered))).
Proof.
  repeat split. simpl. intros [H|[]]. discriminate H.
Qed.

(** ** The file list and the form *)

Lemma filter_from_remove {A : Type} (index : nat) (l : list A) :
  forall i,
    filter_from i (fun _ k => negb (k =? index)%nat) l =
    if (index <? i)%nat then l
    else firstn (index - i) l ++ skipn (S (index - i)) l.
Proof.
  induction l as [|x r IH]; intros i.
  - destruct (index <? i)%nat; [reflexivity|].
    rewrite firstn_nil, skipn_nil. reflexivity.
  - cbn [filter_from]. rewrite IH.
    destruct (Nat.eqb_spec i index) as [E|NE].
    + subst i. cbn [negb].
      replace (index <? S index)%nat with true by (symmetry; apply Nat.ltb_lt; lia).
      rewrite Nat.ltb_irrefl, Nat.sub_diag. reflexivity.
    + cbn [negb]. destruct (Nat.ltb_spec index i) as [L|L].
      * replace (index <? S i)%nat with true by (symmetry; apply Nat.ltb_lt; lia).
        reflexivity.
      * replace (index <? S i)%nat with false by (symmetry; apply Nat.ltb_ge; lia).
        replace (index - i) with (S (index - S i)) by lia.
        reflexivity.
Qed.

(** X1. [removeFile(index)] takes out the file at [index] and keeps the
    others in their order; an index beyond the end leaves the list as
    it is.  The job lists are not touched. *)
Theorem removeFile_spec (fs : list File) (index : nat) (st : State) :
  files (removeFile fs index st) = firstn index fs ++ skipn (S index) fs /\
  (index < List.length fs ->
   S (List.length (files (removeFile fs index st))) = List.length fs) /\
  (List.length fs <= index -> files (removeFile fs index st) = fs) /\
  activeJobs (removeFile fs index st) = activeJobs st /\
  completedJobs (removeFile fs index st) = completedJobs st.
Proof.
  assert (E : files (removeFile fs index st)
              = firstn index fs ++ skipn (S index) fs).
  { unfold removeFile. cbn [files setFiles]. rewrite filter_from_remove.
    cbn. rewrite Nat.sub_0_r. reflexivity. }
  split; [exact E|]. rewrite E. split; [|split; [|split; reflexivity]].
  - intros L. rewrite length_app, length_firstn, length_skipn. lia.
  - intros L. rewrite firstn_all2 by exact L.
    rewrite skipn_all2 by lia. apply app_nil_r.
Qed.

Lemma removeFile_spec_witness :
  1 < List.length [a_pdf; b_pdf; a_pdf] /\
  files (removeFile [a_pdf; b_pdf; a_pdf] 1 initialState) = [a_pdf; a_pdf] /\
  S (List.length (files (removeFile [a_pdf; b_pdf; a_pdf] 1 initialState))) = 3.
Proof.
  assert (L : 1 < List.length [a_pdf; b_pdf; a_pdf]) by (simpl; lia).
  split; [exact L|].
  destruct (removeFile_spec [a_pdf; b_pdf; a_pdf] 1 initialState)
    as (E & Hl & _).
  exact (conj E (Hl L)).
Defined.

Lemma fold_append_files (fs : list File) :
  forall acc : FormData,
    fold_left (fun fd file => append "files" (FormFile file) fd) fs acc =
    acc ++ map (fun f => ("files", FormFile f)) fs.
Proof.
  induction fs as [|f fs IH]; intros acc; simpl.
  - rewrite app_nil_r. reflexivity.
  - rewrite IH. unfold append. rewrite <- app_assoc. reflexivity.
Qed.

Lemma uploadForm_parts (fs : list File) (ledger fy : string) :
  uploadForm fs ledger fy =
  map (fun f => ("files", FormFile f)) fs
  ++ (if truthy (trim ledger)
      then [("ledger_names", FormString (trim ledger))] else [])
  ++ (if truthy fy then [("financial_year", FormString fy)] else []).
Proof.
  unfold uploadForm. rewrite fold_append_files. cbn [app]. unfold append.
  destruct (truthy (trim ledger)), (truthy fy);
    rewrite <- ?app_assoc, ?app_nil_r; reflexivity.
Qed.

Lemma formFiles_files (fs : list File) :
  formFiles (map (fun f => ("files", FormFile f)) fs) = fs.
Proof.
  induction fs as [|f fs IH]; [reflexivity|].
  cbn [map formFiles flat_map]. cbn. f_equal. exact IH.
Qed.

Lemma formFiles_uploadForm (fs : list File) (ledger fy : string) :
  formFiles (uploadForm fs ledger fy) = fs.
Proof.
  rewrite uploadForm_parts. unfold formFiles at 1. rewrite !flat_map_app.
  fold (formFiles (map (fun f => ("files", FormFile f)) fs)).
  rewrite formFiles_files.
  destruct (truthy (trim ledger)), (truthy fy); cbn; apply app_nil_r.
Qed.

(** X2. The form [handleUpload] posts has one entry "files" for each
    selected file, in the order of the selection, then the entry
    "ledger_names" and then the entry "financial_year", each at most
    once; the files of the form are exactly the selected files. *)
Theorem uploadForm_layout (fs : list File) (ledger fy : string) :
  (exists fields,
      uploadForm fs ledger fy = map (fun f => ("files", FormFile f)) fs ++ fields /\
      (fields = [] \/
       fields = [("ledger_names", FormString (trim ledger))] \/
       fields = [("financial_year", FormString fy)] \/
       fields = [("ledger_names", FormString (trim ledger));
                 ("financial_year", FormString fy)])) /\
  formFiles (uploadForm fs ledger fy) = fs.
Proof.
  split; [|apply formFiles_uploadForm].
  rewrite uploadForm_parts. eexists. split; [reflexivity|].
  destruct (truthy (trim ledger)), (truthy fy); cbn; auto.
Qed.

Lemma trimStart_String (a : ascii) (r : string) :
  trimStart (String a r) =
  if isWhiteSpace a then trimStart r
  else match r with
       | EmptyString => String a r
       | String b r2 =>
           if isWhiteSpace2 a b then trimStart r2
           else match r2 with
                | EmptyString => String a r
                | String c r3 =>
                    if isWhiteSpace3 a b c then trimStart r3 else String a r
                end
       end.
Proof. reflexivity. Qed.

Lemma blank_String (a : ascii) (r : string) :
  blank (String a r) =
  if isWhiteSpace a then blank r
  else match r with
       | EmptyString => false
       | String b r2 =>
           if isWhiteSpace2 a b then blank r2
           else match r2 with
                | EmptyString => false
                | String c r3 => if isWhiteSpace3 a b c then blank r3 else false
                end
       end.
Proof. reflexivity. Qed.

Lemma blank_trimStart_upto (n : nat) :
  forall s, String.length s <= n -> blank (trimStart s) = blank s.
Proof.
  induction n as [|n IH]; intros s L.
  - destruct s; [reflexivity|simpl in L; lia].
  - destruct s as [|a r]; [reflexivity|]. simpl in L.
    rewrite trimStart_String, (blank_String a r).
    destruct (isWhiteSpace a) eqn:W1; [apply IH; lia|].
    destruct r as [|b r2].
    { rewrite blank_String, W1. reflexivity. }
    simpl in L.
    destruct (isWhiteSpace2 a b) eqn:W2; [apply IH; lia|].
    destruct r2 as [|c r3].
    { rewrite blank_String, W1, W2. reflexivity. }
    simpl in L.
    destruct (isWhiteSpace3 a b c) eqn:W3; [apply IH; lia|].
    rewrite blank_String, W1, W2, W3. reflexivity.
Qed.

Lemma blank_trimStart (s : string) : blank (trimStart s) = blank s.
Proof. apply (@blank_trimStart_upto (String.length s)). lia. Qed.

Lemma truthy_trimEnd (s : string) : truthy (trimEnd s) = negb (blank s).
Proof.
  destruct s as [|a r]; [reflexivity|].
  cbn [trimEnd]. destruct (blank (String a r)); reflexivity.
Qed.

Lemma truthy_trim (s : string) : truthy (trim s) = negb (blank s).
Proof. unfold trim. rewrite truthy_trimEnd, blank_trimStart. reflexivity. Qed.

(** X3. The two text fields are optional.  The form has the entry
    "ledger_names" exactly when the ledger name is not white space from
    end to end (white space being what [String.prototype.trim] removes,
    the no-break space and the other Unicode spaces included), and its
    value is then the trimmed name; it has the entry "financial_year"
    exactly when a year is selected, with that year as value. *)
Theorem optional_fields (fs : list File) (ledger fy : string) :
  (In "ledger_names" (formKeys (uploadForm fs ledger fy)) <-> blank ledger = false) /\
  (In "financial_year" (formKeys (uploadForm fs ledger fy)) <-> fy <> "") /\
  (forall v, In ("ledger_names", v) (uploadForm fs ledger fy) ->
             v = FormString (trim ledger)) /\
  (forall v, In ("financial_year", v) (uploadForm fs ledger fy) ->
             v = FormString fy).
Proof.
  rewrite uploadForm_parts. unfold formKeys. rewrite truthy_trim.
  assert (NF : forall k v, k <> "files" ->
                 ~ In (k, v) (map (fun f => ("files", FormFile f)) fs)).
  { intros k v Nk I. apply in_map_iff in I. destruct I as (f & E & _).
    inversion E. congruence. }
  assert (NK : forall k, k <> "files" ->
                 ~ In k (map fst (map (fun f => ("files", FormFile f)) fs))).
  { intros k Nk I. rewrite map_map in I. apply in_map_iff in I.
    destruct I as (f & E & _). simpl in E. congruence. }
  assert (Ty : truthy fy = true <-> fy <> "").
  { destruct fy; simpl; split; congruence. }
  repeat split.
  - rewrite !map_app. intros I. apply in_app_or in I. destruct I as [I|I].
    + exfalso. apply (NK "ledger_names"); [discriminate|exact I].
    + destruct (blank ledger); [|reflexivity].
      cbn in I. destruct (truthy fy); cbn in I; [destruct I as [I|[]]|destruct I].
      discriminate I.
  - intros B. rewrite B. cbn [negb]. rewrite !map_app.
    apply in_or_app. right. left. reflexivity.
  - rewrite !map_app. intros I. apply in_app_or in I. destruct I as [I|I].
    + exfalso. apply (NK "financial_year"); [discriminate|exact I].
    + apply Ty. destruct (truthy fy); [reflexivity|].
      destruct (negb (blank ledger)); cbn in I; [destruct I as [I|[]]|destruct I].
      discriminate I.
  - intros F. apply Ty in F. rewrite F, !map_app.
    apply in_or_app. right. apply in_or_app. right. left. reflexivity.
  - intros v I. apply in_app_or in I. destruct I as [I|I].
    + exfalso. apply (NF "ledger_names" v); [discriminate|exact I].
    + destruct (negb (blank ledger)), (truthy fy); cbn in I;
        repeat (destruct I as [I|I]; [inversion I; try reflexivity|]);
        try contradiction.
  - intros v I. apply in_app_or in I. destruct I as [I|I].
    + exfalso. apply (NF "financial_year" v); [discriminate|exact I].
    + destruct (negb (blank ledger)), (truthy fy); cbn in I;
        repeat (destruct I as [I|I]; [inversion I; try reflexivity|]);
        try contradiction.
Qed.

Lemma optional_fields_witness :
  "2023-24" <> "" /\
  In "financial_year" (formKeys (uploadForm [a_pdf] "   " "2023-24")) /\
  ~ In "ledger_names" (formKeys (uploadForm [a_pdf] no_break_space "2023-24")).
Proof.
  assert (N : "2023-24" <> "") by discriminate.
  split; [exact N|]. split.
  - exact (proj2 (proj1 (proj2 (optional_fields [a_pdf] "   " "2023-24"))) N).
  - intros I.
    pose proof (proj1 (proj1 (optional_fields [a_pdf] no_break_space "2023-24")) I)
      as B.
    discriminate B.
Defined.

(** ** More on the upload *)

Section UploadMore.

Variable W : Type.
Variable srv : Server W.

(** The state [handleUpload] leaves, reply by reply. *)
Lemma handleUpload_final
  (fs : list File) (ledger fy : string) (st : State) (w : W) :
  fs <> [] ->
  let q := fst (srv_upload srv (uploadForm fs ledger fy) w) in
  let st0 := setSuccess None (setError None (setIsUploading true st)) in
  final (run srv (handleUpload fs ledger fy) st w) =
  match q with
  | Ok2xx (Some (mkJobsBody (Some js))) =>
      setIsUploading false
        (setActiveTab history
           (setLedgerName ""
              (setFiles []
                 (setSuccess
                    (Some (String.append "Successfully queued "
                             (String.append (toString (List.length fs))
                                            " document(s) for AI analysis.")))
                    (setActiveJobs_fn
                       (fun prev => map (newJob ledger fy) js ++ prev) st0)))))
  | Non2xx (Some errorData) =>
      setIsUploading false
        (setError (Some (or_string (detail errorData)
                                   "Failed to upload documents.")) st0)
  | _ =>
      setIsUploading false
        (setError (Some "Network error: Could not upload documents.") st0)
  end.
Proof.
  intros NE q st0. rewrite (@run_handleUpload W srv fs ledger fy st w NE).
  cbv zeta. fold q. unfold handleUpload.
  destruct fs as [|f fs']; [contradiction|].
  cbn [List.length Nat.eqb settle snd resolveUpload].
  destruct q as [|[[[js|]]|]|[e|]]; reflexivity.
Qed.

(** X4. [handleUpload] sends at most one request: none without files,
    and one POST of the form otherwise, whatever the reply; and when it
    has sent the request it always ends with [isUploading] false. *)
Theorem upload_sends_once
  (fs : list File) (ledger fy : string) (st : State) (w : W) :
  let o := run srv (handleUpload fs ledger fy) st w in
  requests o = match fs with
               | [] => []
               | _ :: _ => [ReqPostUpload (uploadForm fs ledger fy)]
               end /\
  isUploading (final o) = match fs with
                          | [] => isUploading st
                          | _ :: _ => false
                          end.
Proof.
  cbv zeta. destruct fs as [|f fs'] eqn:E; [split; reflexivity|].
  rewrite <- E. assert (NE : fs <> []) by (rewrite E; discriminate).
  split.
  - rewrite (@run_handleUpload W srv fs ledger fy st w NE). cbv zeta.
    cbn [sent requests]. f_equal.
    unfold handleUpload. rewrite E.
    cbn [List.length Nat.eqb settle snd resolveUpload].
    destruct (fst (srv_upload srv (uploadForm (f :: fs') ledger fy) w))
      as [|[[[js|]]|]|[e|]]; reflexivity.
  - rewrite (handleUpload_final ledger fy st w NE). cbv zeta.
    destruct (fst (srv_upload srv (uploadForm fs ledger fy) w))
      as [|[[[js|]]|]|[e|]]; reflexivity.
Qed.

(** X5. After an accepted upload the file list and the ledger name are
    empty, the history tab is shown, there is no error, the year
    selected stays, and the message gives the number of files that were
    selected, whatever the number of jobs in the response. *)
Theorem upload_accepted
  (fs : list File) (ledger fy : string) (st : State) (w : W) (js : list JobInfo) :
  fs <> [] ->
  accepted (fst (srv_upload srv (uploadForm fs ledger fy) w)) = Some js ->
  let st' := final (run srv (handleUpload fs ledger fy) st w) in
  files st' = [] /\
  ledgerName st' = "" /\
  selectedFY st' = selectedFY st /\
  activeTab st' = history /\
  errorMsg st' = None /\
  isUploading st' = false /\
  success st' = Some (String.append "Successfully queued "
                        (String.append (toString (List.length fs))
                                       " document(s) for AI analysis.")) /\
  uploadDisabled st' = true.
Proof.
  intros NE A st'. unfold st'.
  rewrite (handleUpload_final ledger fy st w NE). cbv zeta.
  destruct (fst (srv_upload srv (uploadForm fs ledger fy) w))
    as [|[[[js'|]]|]|[e|]]; try discriminate A.
  repeat split.
Qed.

(** X6. After an upload that was not accepted the page is ready for
    another try: the selected files, the ledger name, the year and the
    tab are as they were, an error message is shown and no success
    message, [isUploading] is false and both job lists are unchanged. *)
Theorem upload_not_accepted
  (fs : list File) (ledger fy : string) (st : State) (w : W) :
  fs <> [] ->
  accepted (fst (srv_upload srv (uploadForm fs ledger fy) w)) = None ->
  let st' := final (run srv (handleUpload fs ledger fy) st w) in
  files st' = files st /\
  ledgerName st' = ledgerName st /\
  selectedFY st' = selectedFY st /\
  activeTab st' = activeTab st /\
  errorMsg st' <> None /\
  success st' = None /\
  isUploading st' = false /\
  activeJobs st' = activeJobs st /\
  completedJobs st' = completedJobs st.
Proof.
  intros NE A st'. unfold st'.
  rewrite (handleUpload_final ledger fy st w NE). cbv zeta.
  destruct (fst (srv_upload srv (uploadForm fs ledger fy) w))
    as [|[[[js'|]]|]|[e|]]; try discriminate A;
    repeat split; discriminate.
Qed.

(** X7. A success response that cannot be used, because its body is not
    JSON or has no [jobs], is reported as a network error, and no job is
    added. *)
Theorem unusable_success_is_network_error
  (fs : list File) (ledger fy : string) (st : State) (w : W) :
  fs <> [] ->
  let q := fst (srv_upload srv (uploadForm fs ledger fy) w) in
  q = Ok2xx None \/ q = Ok2xx (Some (mkJobsBody None)) ->
  let st' := final (run srv (handleUpload fs ledger fy) st w) in
  errorMsg st' = Some "Network error: Could not upload documents." /\
  activeJobs st' = activeJobs st.
Proof.
  intros NE q Q st'. unfold st'.
  rewrite (handleUpload_final ledger fy st w NE). cbv zeta. fold q.
  destruct Q as [-> | ->]; split; reflexivity.
Qed.

(** X8. No double submission.  While the request of [handleUpload] is
    pending the upload button is disabled.  When the upload is over the
    button is disabled after an accepted upload (no file is left) and
    enabled again after any other reply. *)
Theorem no_double_submit (st : State) (w : W) :
  files st <> [] ->
  let pending := settle (submit st) st in
  (exists k, snd pending = PostUpload (uploadForm (files st) (ledgerName st)
                                                  (selectedFY st)) k) /\
  uploadDisabled (fst pending) = true /\
  uploadDisabled (final (run srv (submit st) st w)) =
    match accepted (fst (srv_upload srv (uploadForm (files st) (ledgerName st)
                                                    (selectedFY st)) w)) with
    | Some _ => true
    | None => false
    end.
Proof.
  intros NE pending. split; [|split].
  - unfold pending, submit, handleUpload.
    destruct (files st) as [|f fs']; [contradiction|].
    cbn [List.length Nat.eqb settle snd]. eexists. reflexivity.
  - unfold pending, submit, handleUpload.
    destruct (files st) as [|f fs']; [contradiction|].
    cbn [List.length Nat.eqb settle fst]. unfold uploadDisabled.
    cbn. apply orb_true_r.
  - unfold submit. rewrite (handleUpload_final (ledgerName st) (selectedFY st) st w NE).
    cbv zeta.
    destruct (fst (srv_upload srv (uploadForm (files st) (ledgerName st)
                                              (selectedFY st)) w))
      as [|[[[js'|]]|]|[e|]]; unfold uploadDisabled; cbn;
      try reflexivity;
      destruct (files st); try contradiction; reflexivity.
Qed.

End UploadMore.

(** Two files are uploaded and the server answers with an empty list of
    jobs: the message still counts two documents. *)
Lemma upload_accepted_witness :
  [a_pdf; b_pdf] <> [] /\
  let st' := final (run scripted (handleUpload [a_pdf; b_pdf] "ACME" "2023-24")
                        (setFiles [a_pdf; b_pdf] one_active)
                        (upload_answer (Ok2xx (Some (mkJobsBody (Some [])))))) in
  files st' = [] /\
  success st' = Some "Successfully queued 2 document(s) for AI analysis." /\
  activeJobs st' = [j3].
Proof.
  assert (NE : [a_pdf; b_pdf] <> []) by discriminate.
  split; [exact NE|].
  destruct (@upload_accepted Script scripted [a_pdf; b_pdf] "ACME" "2023-24"
              (setFiles [a_pdf; b_pdf] one_active)
              (upload_answer (Ok2xx (Some (mkJobsBody (Some []))))) [] NE eq_refl)
    as (Hf & _ & _ & _ & _ & _ & Hs & _).
  exact (conj Hf (conj Hs eq_refl)).
Defined.

(** The server refuses the upload: the file is still selected. *)
Lemma upload_not_accepted_witness :
  [a_pdf] <> [] /\
  let st' := final (run scripted (handleUpload [a_pdf] "ACME" "2023-24")
                        (setFiles [a_pdf] one_active) (upload_answer refused)) in
  files st' = [a_pdf] /\ isUploading st' = false /\ activeJobs st' = [j3].
Proof.
  assert (NE : [a_pdf] <> []) by discriminate.
  split; [exact NE|].
  destruct (@upload_not_accepted Script scripted [a_pdf] "ACME" "2023-24"
              (setFiles [a_pdf] one_active) (upload_answer refused) NE eq_refl)
    as (Hf & _ & _ & _ & _ & _ & Hu & Ha & _).
  exact (conj Hf (conj Hu Ha)).
Defined.

(** The server answers 200 with a body that has no [jobs]. *)
Lemma unusable_success_is_network_error_witness :
  [a_pdf] <> [] /\
  errorMsg (final (run scripted (handleUpload [a_pdf] "ACME" "2023-24") one_active
                       (upload_answer (Ok2xx (Some (mkJobsBody None))))))
    = Some "Network error: Could not upload documents.".
Proof.
  assert (NE : [a_pdf] <> []) by discriminate.
  split; [exact NE|].
  exact (proj1 (@unusable_success_is_network_error Script scripted
                  [a_pdf] "ACME" "2023-24" one_active
                  (upload_answer (Ok2xx (Some (mkJobsBody None))))
                  NE (or_intror eq_refl))).
Defined.

(** With one file selected the button is enabled; it is disabled while
    the upload is pending and enabled again when the server refuses. *)
Lemma no_double_submit_witness :
  files (setFiles [a_pdf] one_active) <> [] /\
  uploadDisabled (setFiles [a_pdf] one_active) = false /\
  uploadDisabled (fst (settle (submit (setFiles [a_pdf] one_active))
                              (setFiles [a_pdf] one_active))) = true /\
  uploadDisabled (final (run scripted (submit (setFiles [a_pdf] one_active))
                             (setFiles [a_pdf] one_active) (upload_answer refused)))
    = false.
Proof.
  assert (NE : files (setFiles [a_pdf] one_active) <> []) by discriminate.
  split; [exact NE|]. split; [reflexivity|].
  exact (proj2 (@no_double_submit Script scripted (setFiles [a_pdf] one_active)
                  (upload_answer refused) NE)).
Defined.

(** ** More on the ticks *)

Section TicksMore.

Variable W : Type.
Variable srv : Server W.

Lemma forActiveJobs_count (l : list JobInfo) :
  forall st w,
    let r := ret (run srv (forActiveJobs l [] []) st w) in
    List.length (fst r) + List.length (snd r) = List.length l.
Proof.
  induction l as [|job rest IH]; intros st w; [reflexivity|].
  rewrite run_forActiveJobs_cons. cbv zeta. cbn [ret fst snd].
  specialize (IH st (snd (srv_getJob srv (job_id job) w))). cbv zeta in IH.
  rewrite !length_app.
  destruct (pollResult (fst (srv_getJob srv (job_id job) w))) as [u|]; simpl;
    [destruct (isTerminal (status u)); simpl|]; lia.
Qed.

(** X9. Ticks neither make nor lose a record: after any number of
    ticks the two lists together hold as many records as before. *)
Theorem ticks_keep_count (n : nat) :
  forall (st : State) (w : W),
    let st' := fst (ticks srv n st w) in
    List.length (activeJobs st') + List.length (completedJobs st') =
    List.length (activeJobs st) + List.length (completedJobs st).
Proof.
  induction n as [|n IH]; intros st w; [reflexivity|].
  cbn [ticks]. cbv zeta in IH |- *. rewrite IH.
  rewrite tick_activeJobs, tick_completedJobs, length_app.
  pose proof (forActiveJobs_count (activeJobs st) st w) as C. cbv zeta in C.
  lia.
Qed.

(** X10. Polling is silent: ticks change the two job lists and no other
    hook; the tab, the selected files, the form inputs, the uploading
    flag and the two messages stay as they are. *)
Theorem ticks_touch_only_jobs (n : nat) :
  forall (st : State) (w : W),
    let st' := fst (ticks srv n st w) in
    activeTab st' = activeTab st /\
    files st' = files st /\
    ledgerName st' = ledgerName st /\
    selectedFY st' = selectedFY st /\
    isUploading st' = isUploading st /\
    errorMsg st' = errorMsg st /\
    success st' = success st.
Proof.
  induction n as [|n IH]; intros st w; [repeat split|].
  cbn [ticks]. cbv zeta in IH |- *.
  destruct (IH (final (tick srv st w)) (world (tick srv st w)))
    as (H1 & H2 & H3 & H4 & H5 & H6 & H7).
  rewrite H1, H2, H3, H4, H5, H6, H7.
  unfold tick. rewrite run_pollIntervalCallback. repeat split.
Qed.

Lemma forActiveJobs_all_failed (l : list JobInfo) :
  (forall id w', queryFailed (fst (srv_getJob srv id w')) = true) ->
  forall st w, ret (run srv (forActiveJobs l [] []) st w) = (l, []).
Proof.
  intros F. induction l as [|job rest IH]; intros st w; [reflexivity|].
  rewrite run_forActiveJobs_cons. cbv zeta. cbn [ret].
  rewrite (queryFailed_pollResult _ (F (job_id job) w)), IH. reflexivity.
Qed.

(** X11. An outage changes nothing: when every status query fails, the
    page after any number of ticks is the page before, in every hook. *)
Theorem outage_changes_nothing (n : nat) :
  (forall id w', queryFailed (fst (srv_getJob srv id w')) = true) ->
  forall (st : State) (w : W), fst (ticks srv n st w) = st.
Proof.
  intros F. induction n as [|n IH]; intros st w; [reflexivity|].
  cbn [ticks]. rewrite IH. unfold tick.
  rewrite run_pollIntervalCallback. cbv zeta. cbn [final].
  rewrite (forActiveJobs_all_failed (activeJobs st) F). cbn [fst snd].
  destruct st; reflexivity.
Qed.

Lemma forActiveJobs_all_terminal (l : list JobInfo) :
  (forall id w', exists j,
      fst (srv_getJob srv id w') = Ok2xx (Some j) /\ terminal j) ->
  forall st w, fst (ret (run srv (forActiveJobs l [] []) st w)) = [].
Proof.
  intros T. induction l as [|job rest IH]; intros st w; [reflexivity|].
  rewrite run_forActiveJobs_cons. cbv zeta. cbn [ret fst].
  destruct (T (job_id job) w) as (j & E & Tj).
  rewrite E, IH. cbn. unfold terminal in Tj. rewrite Tj. reflexivity.
Qed.

(** X12. When the server answers every status query with a COMPLETED or
    FAILED record, one tick empties the active list, every job that was
    active has a record in the completed list, and the effect of the
    next render sets no timer: polling stops. *)
Theorem all_finished_in_one_tick
  (st : State) (w : W) (renders : list (list JobInfo)) :
  (forall id w', exists j,
      fst (srv_getJob srv id w') = Ok2xx (Some j) /\ terminal j) ->
  let st' := final (tick srv st w) in
  activeJobs st' = [] /\
  List.length (completedJobs st') =
    List.length (activeJobs st) + List.length (completedJobs st) /\
  scheduled (effectAfter (renders ++ [activeJobs st'])) = [].
Proof.
  intros T st'.
  assert (A : activeJobs st' = []).
  { unfold st'. rewrite tick_activeJobs. apply forActiveJobs_all_terminal, T. }
  split; [exact A|]. split.
  - unfold st'. rewrite tick_completedJobs, length_app.
    pose proof (forActiveJobs_count (activeJobs st) st w) as C. cbv zeta in C.
    rewrite (forActiveJobs_all_terminal (activeJobs st) T) in C. simpl in C.
    lia.
  - rewrite A, effectAfter_snoc.
    apply (@rerunEffect_owns [] _ (effectAfter_owns renders)).
Qed.

End TicksMore.

(** The server cannot be reached for three ticks. *)
Lemma outage_changes_nothing_witness :
  fst (ticks unreachable 3 three_active tt) = three_active.
Proof.
  exact (@outage_changes_nothing unit unreachable 3 (fun _ _ => eq_refl)
           three_active tt).
Defined.

(** Every job is finished on the server. *)
Lemma all_finished_in_one_tick_witness :
  activeJobs (final (tick all_done three_active tt)) = [] /\
  List.length (completedJobs (final (tick all_done three_active tt))) = 4.
Proof.
  destruct (@all_finished_in_one_tick unit all_done three_active tt []
              (fun id _ => ex_intro _ (job id "a.pdf" COMPLETED)
                                    (conj eq_refl eq_refl)))
    as (Ha & Hc & _).
  exact (conj Ha Hc).
Defined.

(** ** More on the initial load *)

Section LoadMore.

Variable W : Type.
Variable srv : Server W.

(** X13. A failed initial load is silent: when the request fails, the
    response is not a success, or its body is not JSON, the page is
    left exactly as it was; in any case one request is sent. *)
Theorem loadJobs_failure_is_silent (st : State) (w : W) :
  let q := fst (srv_getJobs srv w) in
  requests (run srv loadJobs st w) = [ReqGetJobs] /\
  (q = NetworkError \/ q = Ok2xx None \/ (exists b, q = Non2xx b) ->
   final (run srv loadJobs st w) = st).
Proof.
  cbv zeta. unfold loadJobs. cbn [run].
  destruct (srv_getJobs srv w) as [[|[data|]|b] w']; cbn [fst]; split;
    try reflexivity.
  intros [Q|[Q|[b Q]]]; discriminate Q.
Qed.

(** X14. A successful initial load replaces both lists by the jobs of
    the response, split by status: every job of the response is in
    exactly one of the two lists, the active list has the PENDING and
    PROCESSING ones and the completed list the others, each in the
    order of the response.  What the lists held before is gone; a
    response without [jobs] empties both. *)
Theorem loadJobs_replaces_lists (st : State) (w : W) (data : JobsBody) :
  fst (srv_getJobs srv w) = Ok2xx (Some data) ->
  let st' := final (run srv loadJobs st w) in
  let snapshot := or_array (jobs data) [] in
  Permutation (activeJobs st' ++ completedJobs st') snapshot /\
  activeJobs st' = filter (fun j => isActive (status j)) snapshot /\
  completedJobs st' = filter (fun j => negb (isActive (status j))) snapshot /\
  List.length (activeJobs st') + List.length (completedJobs st')
    = List.length snapshot /\
  (jobs data = None -> activeJobs st' = [] /\ completedJobs st' = []).
Proof.
  intros R st' snapshot.
  assert (Ea : activeJobs st'
               = filter (fun j => Status_eqb (status j) PENDING
                                  || Status_eqb (status j) PROCESSING) snapshot).
  { unfold st', loadJobs. cbn [run].
    destruct (srv_getJobs srv w) as [r w']. simpl in R. subst r. reflexivity. }
  assert (Ec : completedJobs st'
               = filter (fun j => Status_eqb (status j) COMPLETED
                                  || Status_eqb (status j) FAILED) snapshot).
  { unfold st', loadJobs. cbn [run].
    destruct (srv_getJobs srv w) as [r w']. simpl in R. subst r. reflexivity. }
  assert (P : Permutation (activeJobs st' ++ completedJobs st') snapshot).
  { rewrite Ea, Ec. apply filter_by_status. }
  split; [exact P|]. split; [|split; [|split]].
  - rewrite Ea. apply filter_ext. reflexivity.
  - rewrite Ec. apply filter_ext. intros j. destruct (status j); reflexivity.
  - rewrite <- length_app. apply Permutation_length, P.
  - intros N. rewrite Ea, Ec. unfold snapshot. rewrite N. split; reflexivity.
Qed.

(** X15. With ticks that run one after the other and a server that
    answers a status query with the record of the job asked for, the
    jobs of the initial load stay split between the two lists: after
    any number of ticks the ids of the two lists together are the ids of
    the snapshot, and no id is there twice when none was twice in the
    snapshot. *)
Theorem known_jobs_stay_partitioned (w : W) (snapshot : list JobInfo) (n : nat) :
  answers_for_the_id srv ->
  fst (srv_getJobs srv w) = Ok2xx (Some (mkJobsBody (Some snapshot))) ->
  let o := run srv loadJobs initialState w in
  let st' := fst (ticks srv n (final o) (world o)) in
  Permutation (map job_id (activeJobs st' ++ completedJobs st'))
              (map job_id snapshot) /\
  (NoDup (map job_id snapshot) ->
   NoDup (map job_id (activeJobs st' ++ completedJobs st'))).
Proof.
  intros Echo R o st'.
  assert (P : Permutation (map job_id (activeJobs st' ++ completedJobs st'))
                          (map job_id snapshot)).
  { unfold st'.
    transitivity (map job_id (activeJobs (final o) ++ completedJobs (final o))).
    - generalize (final o) (world o). clear -Echo.
      induction n as [|n IH]; intros st w; [reflexivity|].
      cbn [ticks]. rewrite IH. apply (tick_same_ids st w Echo).
    - apply Permutation_map. apply (loadJobs_partitions srv w R). }
  split; [exact P|].
  intros N. apply (Permutation_NoDup (Permutation_sym P) N).
Qed.

End LoadMore.

Lemma store_answers_for_the_id : answers_for_the_id store.
Proof.
  intros id db j. cbn. unfold lookup.
  destruct (find (fun j0 => String.eqb (job_id j0) id) db) as [j'|] eqn:F;
    cbn; [|discriminate].
  intros E. inversion E; subst j'.
  apply find_some in F. apply String.eqb_eq, F.
Qed.

(** The list request fails: the page that tracked three jobs still
    does. *)
Lemma loadJobs_failure_is_silent_witness :
  final (run unreachable loadJobs three_active tt) = three_active.
Proof.
  exact (proj2 (@loadJobs_failure_is_silent unit unreachable three_active tt)
               (or_introl eq_refl)).
Defined.

(** The store has one PROCESSING and two COMPLETED jobs; the page
    tracked [j3], which the store does not have. *)
Lemma loadJobs_replaces_lists_witness :
  let st' := final (run store loadJobs one_active [j0_done; j2; j1_done]) in
  activeJobs st' = [j2] /\
  completedJobs st' = [j0_done; j1_done] /\
  List.length (activeJobs st') + List.length (completedJobs st') = 3.
Proof.
  destruct (@loadJobs_replaces_lists (list JobInfo) store one_active
              [j0_done; j2; j1_done]
              (mkJobsBody (Some [j0_done; j2; j1_done])) eq_refl)
    as (_ & Ha & Hc & Hl & _).
  exact (conj Ha (conj Hc Hl)).
Defined.

(** The store has [j1], [j2] and [j0]; two ticks after the load the ids
    of the page are still these three. *)
Lemma known_jobs_stay_partitioned_witness :
  let o := run store loadJobs initialState [j1; j2; j0_done] in
  let st' := fst (ticks store 2 (final o) (world o)) in
  Permutation (map job_id (activeJobs st' ++ completedJobs st'))
              ["j1"; "j2"; "j0"].
Proof.
  exact (proj1 (@known_jobs_stay_partitioned (list JobInfo) store
                  [j1; j2; j0_done] [j1; j2; j0_done] 2
                  store_answers_for_the_id eq_refl)).
Defined.

(** ** More on the timer *)

(** X16. The effect never leaves more than one timer, and its cleanup
    clears the one there is: after the cleanup of the last run (the
    component is unmounted) no timer is left. *)
Theorem cleanup_leaves_no_timer (renders : list (list JobInfo)) :
  let e := effectAfter renders in
  List.length (live (snd e)) <= 1 /\
  live (cleanup (fst e) (snd e)) = [].
Proof.
  cbv zeta. split; [|apply cleanup_clears, effectAfter_owns].
  pose proof (effectAfter_owns renders) as O. unfold owns in O.
  destruct (fst (effectAfter renders)) as [h|].
  - destruct O as [i E]. rewrite E. simpl. lia.
  - rewrite O. simpl. lia.
Qed.

(** ** The financial years *)

(** X17. [fetchData] sends one request and always ends with [isLoading]
    false.  A success with a non-empty list stores the list and selects
    its first year; a success with an empty list stores it and keeps
    the selection; any failure keeps both.  The job lists, the selected
    files and the selected job are never touched. *)
Theorem fetchData_spec (r : Reply (list string)) (pg : Page) :
  let pg' := runPage r fetchData pg in
  pageRequests r fetchData = 1 /\
  isLoading pg' = false /\
  financialYears pg' = match r with
                       | Ok2xx (Some fyData) => fyData
                       | _ => financialYears pg
                       end /\
  selectedFY (hooks pg') = match r with
                           | Ok2xx (Some (fy0 :: _)) => fy0
                           | _ => selectedFY (hooks pg)
                           end /\
  activeJobs (hooks pg') = activeJobs (hooks pg) /\
  completedJobs (hooks pg') = completedJobs (hooks pg) /\
  files (hooks pg') = files (hooks pg) /\
  selectedJob pg' = selectedJob pg.
Proof.
  cbv zeta. destruct r as [|[[|fy0 rest]|]|b]; repeat split.
Qed.

(** X18. The year of the form comes from the financial years.  When the
    years could not be loaded, or the list is empty, a page that starts
    with no year selected posts no "financial_year"; when the list
    starts with a non-empty year, the form has it as "financial_year". *)
Theorem year_of_the_form
  (r : Reply (list string)) (pg : Page) (fs : list File) :
  selectedFY (hooks pg) = "" ->
  let st := hooks (runPage r fetchData pg) in
  let form := uploadForm fs (ledgerName st) (selectedFY st) in
  match r with
  | Ok2xx (Some (fy0 :: _)) =>
      fy0 <> "" -> In ("financial_year", FormString fy0) form
  | _ => ~ In "financial_year" (formKeys form)
  end.
Proof.
  intros E st form.
  assert (S : selectedFY st = match r with
                              | Ok2xx (Some (fy0 :: _)) => fy0
                              | _ => ""
                              end).
  { unfold st. destruct r as [|[[|fy0 rest]|]|b]; cbn; try exact E; reflexivity. }
  unfold form. rewrite uploadForm_parts, S.
  assert (NK : forall l, ~ In "financial_year"
                 (formKeys (map (fun f => ("files", FormFile f)) fs
                            ++ (if truthy (trim l)
                                then [("ledger_names", FormString (trim l))]
                                else []) ++ []))).
  { intros l I. unfold formKeys in I. rewrite !map_app in I.
    apply in_app_or in I. destruct I as [I|I].
    - rewrite map_map in I. apply in_map_iff in I.
      destruct I as (f & F & _). discriminate F.
    - destruct (truthy (trim l)); cbn in I; [destruct I as [I|[]]|destruct I].
      discriminate I. }
  destruct r as [|[[|fy0 rest]|]|b]; try apply NK.
  intros N. destruct fy0 as [|c s]; [contradiction|]. cbn [truthy].
  apply in_or_app. right. apply in_or_app. right. left. reflexivity.
Qed.

(** ** The details of a completed job *)

(** X19. The click on a completed job opens its details when they were
    closed and closes them when they were open, so two clicks on the
    same job bring back what was shown for it; and after a click on a
    job no job with another id has its details open. *)
Theorem click_toggles (sel : option JobInfo) (job other : JobInfo) (pg : Page) :
  let once := selectedJob (onJobClick sel job pg) in
  let twice := selectedJob (onJobClick once job pg) in
  isSelected once job = negb (isSelected sel job) /\
  isSelected twice job = isSelected sel job /\
  (job_id other <> job_id job -> isSelected once other = false) /\
  hooks (onJobClick sel job pg) = hooks pg.
Proof.
  cbv zeta. unfold onJobClick. cbn [selectedJob setSelectedJob hooks].
  assert (R : isSelected (Some job) job = true).
  { cbn. apply String.eqb_refl. }
  destruct (isSelected sel job) eqn:S; cbn [negb]; rewrite ?R;
    repeat split; try assumption; try (cbn; apply String.eqb_refl).
  intros N. cbn. apply String.eqb_neq. congruence.
Qed.

(** No year could be loaded: the form of the upload has no year. *)
Lemma year_of_the_form_witness :
  selectedFY (hooks initialPage) = "" /\
  ~ In "financial_year"
       (formKeys (uploadForm [a_pdf] "" (selectedFY
          (hooks (runPage NetworkError fetchData initialPage))))).
Proof.
  split; [reflexivity|].
  exact (year_of_the_form NetworkError initialPage [a_pdf] eq_refl).
Defined.

(** The details of [j1_done] are opened; those of [j0_done] are then
    closed. *)
Lemma click_toggles_witness :
  job_id j0_done <> job_id j1_done /\
  isSelected (selectedJob (onJobClick None j1_done initialPage)) j0_done = false.
Proof.
  assert (N : job_id j0_done <> job_id j1_done) by discriminate.
  split; [exact N|].
  exact (proj1 (proj2 (proj2 (click_toggles None j1_done j0_done initialPage))) N).
Defined.

(** ** Handlers one after the other *)

Section Flows.

Variable W : Type.
Variable srv : Server W.

(** X20. Choosing files replaces the selection, and a dialog that gives
    no file list keeps it; the upload submitted from the render after
    the choice posts exactly the chosen files, in their order. *)
Theorem chosen_files_are_posted (chosen : list File) (st : State) (w : W) :
  chosen <> [] ->
  let st' := handleFileChange (Some chosen) st in
  files st' = chosen /\
  handleFileChange None st = st /\
  exists form,
    requests (run srv (submit st') st' w) = [ReqPostUpload form] /\
    formFiles form = chosen.
Proof.
  intros NE st'. split; [reflexivity|]. split; [reflexivity|].
  exists (uploadForm chosen (ledgerName st) (selectedFY st)).
  split; [|apply formFiles_uploadForm].
  unfold submit. change (files st') with chosen.
  change (ledgerName st') with (ledgerName st).
  change (selectedFY st') with (selectedFY st).
  rewrite (@run_handleUpload W srv chosen (ledgerName st) (selectedFY st) st' w NE).
  cbv zeta. cbn [sent requests]. f_equal.
  unfold handleUpload. destruct chosen as [|f fs']; [contradiction|].
  cbn [List.length Nat.eqb settle snd resolveUpload].
  destruct (fst (srv_upload srv (uploadForm (f :: fs') (ledgerName st)
                                            (selectedFY st)) w))
    as [|[[[js|]]|]|[e|]]; reflexivity.
Qed.

Lemma forActiveJobs_any_state (l : list JobInfo) :
  forall st1 st2 w,
    ret (run srv (forActiveJobs l [] []) st1 w)
      = ret (run srv (forActiveJobs l [] []) st2 w).
Proof.
  induction l as [|job rest IH]; intros st1 st2 w; [reflexivity|].
  rewrite !run_forActiveJobs_cons. cbv zeta. cbn [ret].
  rewrite (IH st1 st2). reflexivity.
Qed.

(** X21. A tick writes the active list from the array of its own render:
    run to its end on any state, the callback made from the array [a]
    leaves the same active list, of at most as many records as [a] has,
    whatever the active list of that state was; the completed list, in
    contrast, is the one of that state with the new records in front. *)
Theorem tick_writes_from_its_own_render
  (a : list JobInfo) (st1 st2 : State) (w : W) :
  let o1 := run srv (pollIntervalCallback a) st1 w in
  let o2 := run srv (pollIntervalCallback a) st2 w in
  activeJobs (final o1) = activeJobs (final o2) /\
  List.length (activeJobs (final o1)) <= List.length a /\
  exists newly,
    completedJobs (final o1) = newly ++ completedJobs st1 /\
    completedJobs (final o2) = newly ++ completedJobs st2.
Proof.
  cbv zeta. rewrite !run_pollIntervalCallback. cbv zeta. cbn [final].
  cbn [activeJobs completedJobs setActiveJobs setActiveJobs_fn
       setCompletedJobs_fn].
  rewrite (forActiveJobs_any_state a st2 st1 w).
  split; [reflexivity|]. split.
  - pose proof (forActiveJobs_count srv a st1 w) as C. cbv zeta in C. lia.
  - eexists. split; reflexivity.
Qed.

(** X22. The jobs of an accepted upload are polled by the tick that is
    made from the list the upload left, when that tick is the next one
    to run (no tick was waiting for the server when the upload was
    answered): it queries first the ids of the response, in the order of
    the response, and then the ids that were active before. *)
Theorem uploaded_jobs_are_polled
  (fs : list File) (ledger fy : string) (st : State) (w : W) (js : list JobInfo) :
  fs <> [] ->
  fst (srv_upload srv (uploadForm fs ledger fy) w)
    = Ok2xx (Some (mkJobsBody (Some js))) ->
  let o := run srv (handleUpload fs ledger fy) st w in
  requests (tick srv (final o) (world o)) =
    map ReqGetJob (map job_id js ++ map job_id (activeJobs st)).
Proof.
  intros NE R o. rewrite tick_requests. unfold o.
  rewrite (@handleUpload_adds W srv fs ledger fy st w js NE R).
  rewrite !map_app, !map_map. reflexivity.
Qed.

End Flows.

(** Two files are chosen on a page that had another one selected. *)
Lemma chosen_files_are_posted_witness :
  [a_pdf; b_pdf] <> [] /\
  files (handleFileChange (Some [a_pdf; b_pdf]) (setFiles [b_pdf] one_active))
    = [a_pdf; b_pdf].
Proof.
  assert (NE : [a_pdf; b_pdf] <> []) by discriminate.
  split; [exact NE|].
  exact (proj1 (@chosen_files_are_posted Script scripted [a_pdf; b_pdf]
                  (setFiles [b_pdf] one_active) (upload_answer refused) NE)).
Defined.

(** After the upload answered by [queued] the tick asks for [j4], [j5]
    and then [j3]. *)
Lemma uploaded_jobs_are_polled_witness :
  [a_pdf; b_pdf] <> [] /\
  let o := run scripted (handleUpload [a_pdf; b_pdf] "ACME" "2023-24") one_active
               (upload_answer queued) in
  requests (tick scripted (final o) (world o)) =
    [ReqGetJob "j4"; ReqGetJob "j5"; ReqGetJob "j3"].
Proof.
  assert (NE : [a_pdf; b_pdf] <> []) by discriminate.
  split; [exact NE|].
  exact (@uploaded_jobs_are_polled Script scripted [a_pdf; b_pdf] "ACME" "2023-24"
           one_active (upload_answer queued) _ NE eq_refl).
Defined.
